(** * Chargeback webhook handler: a shallow embedding and its properties

    The development follows the TypeScript sources:
    - [utils/webhookValidator.ts]   signature, topic and shop-domain checks
      (the version that compares base64 digests and exports
      [validateChargebackWebhook] and [validateShopDomain], which the handler
      imports);
    - [utils/environmentDetector.ts] environment detection from the host header;
    - [services/chargebackService.ts] the processing pipeline and the tag rule;
    - [services/shopifyService.ts], [services/databaseService.ts],
      [services/slackService.ts]    the three collaborators;
    - [ChargebackWebhook/index.ts]  the HTTP handler, [persistError] and
      [sanitizeRequestData].

    Conventions of the model.
    - JavaScript strings are modelled by [string]; one [ascii] stands for one
      code unit below 256.
    - Code that may throw returns a [Res]; [async] code that calls the
      collaborators runs in the monad [M], which threads the [dbAvailable]
      field of the service and a trace of the calls made on the database, the
      commerce platform and the chat service, in the order they are made.
      An entry of the trace is a call: whether a row is stored or a message
      posted is the answer of the outside world ([World]).
    - The outside world answers the same way throughout one event, and
      [request.text()] resolves to the raw body each time it is called.
    - The runtime's HMAC and JSON functions are parameters ([Runtime]).
    - Console logging is left out, except where a logged expression can
      throw. *)

From Stdlib Require Import String Ascii List ZArith Bool Lia.
Import ListNotations.
Open Scope string_scope.

(** ** JavaScript string primitives used by the sources *)

Module Js.

(** [s.includes(p)] *)
Fixpoint includes (s p : string) : bool :=
  String.prefix p s
  || match s with
     | EmptyString => false
     | String _ s' => includes s' p
     end.

(** [p] occurs in [s] as a contiguous run of characters. *)
Definition Substring (p s : string) : Prop :=
  exists a b, s = a ++ p ++ b.

Fixpoint mem_char (c : ascii) (s : string) : bool :=
  match s with
  | EmptyString => false
  | String a s' => Ascii.eqb a c || mem_char c s'
  end.

(** Truthiness of a string: only the empty string is falsy. *)
Definition truthy (s : string) : bool :=
  match s with
  | EmptyString => false
  | String _ _ => true
  end.

(** [o || d] for an optional string, [undefined] and the empty string both
    being falsy. *)
Definition or_else (o : option string) (d : string) : string :=
  match o with
  | Some s => if truthy s then s else d
  | None => d
  end.

(** [!o] for an optional string. *)
Definition falsy (o : option string) : bool :=
  match o with
  | Some s => negb (truthy s)
  | None => true
  end.

Definition is_upper (c : ascii) : bool :=
  let n := nat_of_ascii c in (65 <=? n)%nat && (n <=? 90)%nat.

Definition lower_char (c : ascii) : ascii :=
  if is_upper c then ascii_of_nat (nat_of_ascii c + 32) else c.

(** [s.toLowerCase()] on the ASCII letters. *)
Fixpoint toLowerCase (s : string) : string :=
  match s with
  | EmptyString => EmptyString
  | String c s' => String (lower_char c) (toLowerCase s')
  end.

(** White space removed by [String.prototype.trim] among the code units below
    256: TAB, LF, VT, FF, CR, SPACE and NBSP. *)
Definition is_space (c : ascii) : bool :=
  let n := nat_of_ascii c in
  ((9 <=? n)%nat && (n <=? 13)%nat) || (n =? 32)%nat || (n =? 160)%nat.

Fixpoint trimStart (s : string) : string :=
  match s with
  | EmptyString => EmptyString
  | String c s' => if is_space c then trimStart s' else s
  end.

Fixpoint trimEnd (s : string) : string :=
  match s with
  | EmptyString => EmptyString
  | String c s' =>
      match trimEnd s' with
      | EmptyString => if is_space c then EmptyString else String c EmptyString
      | t => String c t
      end
  end.

Definition trim (s : string) : string := trimEnd (trimStart s).

Definition digit_char (n : nat) : ascii := ascii_of_nat (48 + n).

Fixpoint digits_of (fuel : nat) (n : N) (acc : string) : string :=
  match fuel with
  | O => acc
  | S fuel' =>
      let acc' := String (digit_char (N.to_nat (n mod 10))) acc in
      if (n <? 10)%N then acc' else digits_of fuel' (n / 10)%N acc'
  end.

Definition string_of_N (n : N) : string :=
  digits_of (S (N.to_nat (N.log2 n))) n EmptyString.

(** [String(n)] for an integral number. *)
Definition string_of_Z (z : Z) : string :=
  match z with
  | Z0 => "0"
  | Zpos p => string_of_N (Npos p)
  | Zneg p => "-" ++ string_of_N (Npos p)
  end.

End Js.

(** ** The tag-escalation rule ([ChargebackService.applyTagLogic]) *)

Record TagResult := mkTagResult {
  shouldUpdate : bool;
  newTags : string;
  action : string
}.

Definition applyTagLogic (currentTags : string) : TagResult :=
  let hasChargebackFlag1 := Js.includes currentTags "chargeback_flag1" in
  let hasChargebackRisk := Js.includes currentTags "chargeback_risk" in
  if hasChargebackRisk then
    {| shouldUpdate := false;
       newTags := currentTags;
       action := "Customer already has chargeback_risk, no need to add chargeback_flag1" |}
  else if negb hasChargebackFlag1 then
    {| shouldUpdate := true;
       newTags := if Js.truthy currentTags
                  then currentTags ++ ", chargeback_flag1"
                  else "chargeback_flag1";
       action := "Added tag: chargeback_flag1" |}
  else
    {| shouldUpdate := true;
       newTags := if Js.truthy currentTags
                  then currentTags ++ ", chargeback_risk"
                  else "chargeback_risk";
       action := "Added tag: chargeback_risk (customer already has chargeback_flag1)" |}.

(** The tag string after the first flag is added. *)
Definition flagged (s : string) : string :=
  if Js.truthy s then s ++ ", chargeback_flag1" else "chargeback_flag1".

(** ** Results of code that may throw *)

Record JsError := mkJsError {
  err_name : string;      (* [error.constructor.name] *)
  err_message : string;   (* [error.message] *)
  err_stack : string      (* [error.stack]; only its first line is modelled *)
}.

Definition TypeError (msg : string) : JsError :=
  {| err_name := "TypeError"; err_message := msg;
     err_stack := "TypeError: " ++ msg |}.

Definition RangeError (msg : string) : JsError :=
  {| err_name := "RangeError"; err_message := msg;
     err_stack := "RangeError: " ++ msg |}.

(** The two errors the engine raises in this program: a method call on a
    value that has no such method, and a property read on [null]. *)
Definition includesNotAFunction : JsError :=
  TypeError "currentTags.includes is not a function".

Definition nullDispute : JsError :=
  TypeError "Cannot read properties of null (reading 'id')".

Inductive Res (A : Type) : Type :=
| Ok (a : A)
| Throw (e : JsError).

Arguments Ok {A} a.
Arguments Throw {A} e.

(** ** Buffers and the constant-time comparison *)

Module Buffer.

(** The six-bit value of a character of the base64 alphabet; the URL-safe
    characters [-] and [_] are accepted as well. *)
Definition value (c : ascii) : option Z :=
  let n := Z.of_nat (nat_of_ascii c) in
  if (65 <=? n)%Z && (n <=? 90)%Z then Some (n - 65)%Z
  else if (97 <=? n)%Z && (n <=? 122)%Z then Some (n - 71)%Z
  else if (48 <=? n)%Z && (n <=? 57)%Z then Some (n + 4)%Z
  else if (n =? 43)%Z || (n =? 45)%Z then Some 62%Z
  else if (n =? 47)%Z || (n =? 95)%Z then Some 63%Z
  else None.

(** Decoding stops at the first [=]; characters outside the alphabet are
    skipped. *)
Fixpoint sextets (s : string) : list Z :=
  match s with
  | EmptyString => []
  | String c s' =>
      if Ascii.eqb c "="%char then []
      else match value c with
           | Some v => v :: sextets s'
           | None => sextets s'
           end
  end.

Fixpoint bytes (l : list Z) : list Z :=
  match l with
  | a :: b :: c :: d :: rest =>
      Z.lor (Z.shiftl a 2) (Z.shiftr b 4)
      :: Z.lor (Z.shiftl (Z.land b 15) 4) (Z.shiftr c 2)
      :: Z.lor (Z.shiftl (Z.land c 3) 6) d
      :: bytes rest
  | [a; b; c] =>
      [Z.lor (Z.shiftl a 2) (Z.shiftr b 4);
       Z.lor (Z.shiftl (Z.land b 15) 4) (Z.shiftr c 2)]
  | [a; b] => [Z.lor (Z.shiftl a 2) (Z.shiftr b 4)]
  | _ => []
  end.

(** [Buffer.from(s, 'base64')] *)
Definition from_base64 (s : string) : list Z := bytes (sextets s).

Fixpoint equal (a b : list Z) : bool :=
  match a, b with
  | [], [] => true
  | x :: a', y :: b' => (x =? y)%Z && equal a' b'
  | _, _ => false
  end.

End Buffer.

(** [crypto.timingSafeEqual(a, b)]: throws on buffers of different byte
    length, otherwise compares them. *)
Definition timingSafeEqual (a b : list Z) : Res bool :=
  if (List.length a =? List.length b)%nat
  then Ok (Buffer.equal a b)
  else Throw (RangeError "Input buffers must have the same byte length").

(** ** Requests, configuration and the runtime library *)

Record HttpRequest := mkRequest {
  headers : list (string * string);
  text : string              (* what [request.text()] resolves to *)
}.

(** [request.headers.get(name)]: header names are matched without regard to
    case. *)
Fixpoint headers_lookup (hs : list (string * string)) (name : string)
  : option string :=
  match hs with
  | [] => None
  | (k, v) :: hs' =>
      if String.eqb (Js.toLowerCase k) name then Some v
      else headers_lookup hs' name
  end.

Definition headers_get (request : HttpRequest) (name : string) : option string :=
  headers_lookup (headers request) (Js.toLowerCase name).

(** The entries of [process.env] read by the validators. *)
Record ProcessEnv := mkEnv {
  SHOPIFY_WEBHOOK_SECRET : option string;
  SHOPIFY_SHOP_DOMAIN : option string
}.

Record ShopifyDispute := mkDispute {
  d_id : Z;
  d_order_id : Z;
  d_amount : string;
  d_currency : string;
  d_reason : string;
  d_status : string;
  d_type : string;
  d_created_at : string;
  d_network_reason_code : string;
  d_evidence_due_by : string
}.

(** What [JSON.parse(body)] yields: a syntax error, [null], or an object of
    the declared shape [ShopifyDispute]. *)
Inductive ParseResult :=
| SyntaxError (message : string)
| ParsedNull
| ParsedDispute (d : ShopifyDispute).

(** Functions of the runtime's standard library that the sources call. *)
Record Runtime := mkRuntime {
  (* crypto.createHmac('sha256', secret).update(body, 'utf8').digest('base64') *)
  hmacSha256Base64 : string -> string -> string;
  JSON_parse : string -> ParseResult;
  (* JSON.stringify(dispute) *)
  JSON_stringify : ShopifyDispute -> string
}.

(** ** [utils/webhookValidator.ts] *)

Section Validator.

Variable rt : Runtime.
Variable env : ProcessEnv.

(** The body of the [try] block. *)
Definition validateShopifyWebhook_try
  (request : HttpRequest) (body : option string) : Res bool :=
  let webhookSecret := SHOPIFY_WEBHOOK_SECRET env in
  if Js.falsy webhookSecret then Ok false
  else
    let secret := Js.or_else webhookSecret "" in
    let hmacHeader := headers_get request "X-Shopify-Hmac-Sha256" in
    let requestBody := Js.or_else body (text request) in
    if Js.falsy hmacHeader then
      (* the digest is computed for the log only *)
      Ok true
    else
      let expectedHmac := hmacSha256Base64 rt secret requestBody in
      timingSafeEqual
        (Buffer.from_base64 (Js.or_else hmacHeader ""))
        (Buffer.from_base64 expectedHmac).

Definition validateShopifyWebhook
  (request : HttpRequest) (body : option string) : Res bool :=
  match validateShopifyWebhook_try request body with
  | Ok isValid => Ok isValid
  | Throw _ => Ok false
  end.

Definition supportedTopics : list string :=
  ["disputes/create"; "disputes/update"; "chargebacks/create"; "chargebacks/update"].

Definition validateChargebackWebhook (request : HttpRequest) : bool :=
  let topic := headers_get request "x-shopify-topic" in
  if Js.falsy topic then false
  else existsb (String.eqb (Js.or_else topic "")) supportedTopics.

Definition validateShopDomain (request : HttpRequest) : bool :=
  let expectedDomain := SHOPIFY_SHOP_DOMAIN env in
  let receivedDomain := headers_get request "x-shopify-shop-domain" in
  if Js.falsy expectedDomain then true
  else if Js.falsy receivedDomain then false
  else String.eqb (Js.or_else receivedDomain "") (Js.or_else expectedDomain "").

End Validator.

(** ** [utils/environmentDetector.ts] *)

Definition localHosts : list string :=
  ["localhost"; "127.0.0.1"; "0.0.0.0"; "::1";
   "localhost:7071"; "127.0.0.1:7071"; "0.0.0.0:7071"].

Definition detectEnvironment (request : HttpRequest) : string :=
  let host := Js.or_else (headers_get request "host") "" in
  let isLocalHost :=
    existsb (fun localHost =>
               Js.includes (Js.toLowerCase host) (Js.toLowerCase localHost))
            localHosts in
  let isDevelopmentHost :=
    Js.includes host "localhost" || Js.includes host "127.0.0.1"
    || Js.includes host "dev.azurewebsites.net"
    || Js.includes host "test.azurewebsites.net" in
  if isLocalHost || isDevelopmentHost then "development" else "production".

Definition getEnvironment (request : HttpRequest) : string :=
  detectEnvironment request.

(** ** [types/shopify.ts] and the persisted rows of [databaseService.ts] *)

(** A value as it arrives in the platform's JSON.  [ShopifyCustomer.tags] is
    declared [tags?: string], but nothing checks the response at run time and
    [tags] is the one field on which the pipeline calls a method. *)
Inductive JsValue :=
| JsUndefined
| JsNull
| JsBoolean (b : bool)
| JsNumber (z : Z)
| JsString (s : string).

Definition JsValue_truthy (v : JsValue) : bool :=
  match v with
  | JsUndefined | JsNull => false
  | JsBoolean b => b
  | JsNumber z => negb (z =? 0)%Z
  | JsString s => Js.truthy s
  end.

Record ShopifyCustomer := mkCustomer {
  c_id : Z;
  c_first_name : option string;
  c_last_name : option string;
  c_email : option string;
  c_tags : JsValue
}.

Record ShopifyOrder := mkOrder {
  o_id : Z;
  o_name : string;
  o_customer : option ShopifyCustomer
}.

(** [parseFloat(text)], kept symbolic. *)
Inductive JsNumberOf := parseFloat (text : string).

Record WebhookRecord := mkWebhookRecord {
  customer_name : string;
  customer_email : string;
  order_id : Z;
  webhook_json : string;
  wr_action : string;
  customer_tags_before : string;
  customer_tags_after : string;
  dispute_id : Z;
  dispute_amount : JsNumberOf;
  dispute_currency : string;
  dispute_reason : string;
  dispute_status : string;
  processed_at : Z
}.

Record ErrorRecord := mkErrorRecord {
  http_code : Z;
  error_message : string;
  error_type : string;
  function_name : string;
  er_order_id : option Z;
  er_dispute_id : option Z;
  er_customer_email : option string;
  stack_trace : option string;
  request_data : option string;
  environment : string
}.

(** ** Effects *)

(** The calls made on the three collaborators, in the order they happen. *)
Inductive Effect :=
| TestConnection
| InsertWebhookRecord (record : WebhookRecord)
| InsertErrorRecord (record : ErrorRecord)
| DatabaseClose
| GetOrder (orderId : Z)
| UpdateCustomerTags (customerId : Z) (tags : string)
| SendWebhookNotification (dispute : option ShopifyDispute)
    (action customerName customerEmail orderName : option string).

(** How the outside world answers during one event. *)
Record World := mkWorld {
  db_connects : bool;                       (* [pool.getConnection] and [ping] succeed *)
  db_executes : bool;                       (* [pool.execute] succeeds *)
  shop_order : Z -> option ShopifyOrder;    (* [response.data.order], if any *)
  shop_puts : Z -> string -> bool;          (* the customer [PUT] succeeds *)
  slack_posts : bool;                       (* channel configured and [result.ok] *)
  now : Z                                   (* [new Date()] *)
}.

(** The mutable state of one invocation: the [dbAvailable] field of the
    [ChargebackService] instance and the trace so far. *)
Record Machine := mkMachine {
  dbAvailable : bool;
  trace : list Effect
}.

Definition initial : Machine := {| dbAvailable := false; trace := [] |}.

Definition M (A : Type) : Type := Machine -> Res A * Machine.

Definition ret {A} (a : A) : M A := fun m => (Ok a, m).

Definition bind {A B} (c : M A) (k : A -> M B) : M B :=
  fun m =>
    match c m with
    | (Ok a, m') => k a m'
    | (Throw e, m') => (Throw e, m')
    end.

Definition throw {A} (e : JsError) : M A := fun m => (Throw e, m).

(** [try { c } catch (error) { h error }] *)
Definition try_catch {A} (c : M A) (h : JsError -> M A) : M A :=
  fun m =>
    match c m with
    | (Ok a, m') => (Ok a, m')
    | (Throw e, m') => h e m'
    end.

Definition emit (e : Effect) : M unit :=
  fun m => (Ok tt, {| dbAvailable := dbAvailable m; trace := trace m ++ [e] |}).

Definition get_dbAvailable : M bool := fun m => (Ok (dbAvailable m), m).

Definition set_dbAvailable (b : bool) : M unit :=
  fun m => (Ok tt, {| dbAvailable := b; trace := trace m |}).

Definition lift {A} (r : Res A) : M A := fun m => (r, m).

Definition when (b : bool) (c : M unit) : M unit := if b then c else ret tt.

Declare Scope js_scope.
Delimit Scope js_scope with js.
Notation "x <- c ;; k" := (bind c (fun x => k))
  (at level 61, c at next level, right associativity) : js_scope.
Notation "c ;; k" := (bind c (fun _ => k))
  (at level 61, right associativity) : js_scope.
Open Scope js_scope.

(** ** The collaborators *)

Section Collaborators.

Variable w : World.

(** [DatabaseService]: each method catches its own failures and answers with
    a boolean. *)
Definition testConnection : M bool :=
  emit TestConnection ;; ret (db_connects w).

Definition insertWebhookRecord (record : WebhookRecord) : M bool :=
  emit (InsertWebhookRecord record) ;; ret (db_executes w).

Definition insertErrorRecord (record : ErrorRecord) : M bool :=
  emit (InsertErrorRecord record) ;; ret (db_executes w).

Definition databaseClose : M unit := emit DatabaseClose.

(** [ShopifyService]: a failed request is logged and answered with [null]
    or [false]. *)
Definition getOrder (orderId : Z) : M (option ShopifyOrder) :=
  emit (GetOrder orderId) ;; ret (shop_order w orderId).

Definition updateCustomerTags (customerId : Z) (tags : string) : M bool :=
  emit (UpdateCustomerTags customerId tags) ;; ret (shop_puts w customerId tags).

(** [SlackService.sendWebhookNotification]: never throws. *)
Definition sendWebhookNotification (dispute : option ShopifyDispute)
  (action customerName customerEmail orderName : option string) : M bool :=
  emit (SendWebhookNotification dispute action customerName customerEmail orderName) ;;
  ret (slack_posts w).

End Collaborators.

(** ** [services/chargebackService.ts] *)

Record ProcessResult := mkProcessResult {
  success : bool;
  statusCode : option Z;
  message : option string
}.

Section ChargebackService.

Variable rt : Runtime.
Variable w : World.

(** [request ? getEnvironment(request) : 'development'] *)
Definition environmentOf (request : option HttpRequest) : string :=
  match request with
  | Some r => getEnvironment r
  | None => "development"
  end.

(** [order.customer?.email] *)
Definition customerEmailOf (order : ShopifyOrder) : option string :=
  match o_customer order with
  | Some customer => c_email customer
  | None => None
  end.

(** [order.customer?.tags || ''] *)
Definition customerTagsOf (order : ShopifyOrder) : JsValue :=
  match o_customer order with
  | Some customer =>
      if JsValue_truthy (c_tags customer) then c_tags customer else JsString ""
  | None => JsString ""
  end.

Definition customerNameOf (order : ShopifyOrder) : string :=
  match o_customer order with
  | Some customer =>
      Js.trim (Js.or_else (c_first_name customer) "" ++ " "
               ++ Js.or_else (c_last_name customer) "")
  | None => "Customer not identified"
  end.

Definition orderNameOf (order : ShopifyOrder) (dispute : ShopifyDispute) : string :=
  if Js.truthy (o_name order) then o_name order
  else "#" ++ Js.string_of_Z (d_order_id dispute).

Definition orderNotFound (dispute : ShopifyDispute) : string :=
  "Order " ++ Js.string_of_Z (d_order_id dispute) ++ " not found".

(** The [webhookRecord] object built on the success path. *)
Definition webhookRecord (dispute : ShopifyDispute)
  (customerName customerEmail : string) (tagResult : TagResult)
  (customerTags finalTags : string) : WebhookRecord :=
  {| customer_name := customerName;
     customer_email := customerEmail;
     order_id := d_order_id dispute;
     webhook_json := JSON_stringify rt dispute;
     wr_action := action tagResult;
     customer_tags_before := customerTags;
     customer_tags_after := finalTags;
     dispute_id := d_id dispute;
     dispute_amount := parseFloat (d_amount dispute);
     dispute_currency := d_currency dispute;
     dispute_reason := d_reason dispute;
     dispute_status := d_status dispute;
     processed_at := now w |}.

(** The row written by the [catch] block. *)
Definition processingErrorRecord (dispute : ShopifyDispute)
  (request : option HttpRequest) (error : JsError) (customerEmail : string)
  : ErrorRecord :=
  {| http_code := 500;
     error_message := err_message error;
     error_type := err_name error;
     function_name := "ChargebackService.processChargeback";
     er_order_id := Some (d_order_id dispute);
     er_dispute_id := Some (d_id dispute);
     er_customer_email := Some customerEmail;
     stack_trace := Some (err_stack error);
     request_data := Some (JSON_stringify rt dispute);
     environment := environmentOf request |}.

(** The row written when the order is not found. *)
Definition orderNotFoundRecord
  (dispute : ShopifyDispute) (request : option HttpRequest) : ErrorRecord :=
  {| http_code := 404;
     error_message := orderNotFound dispute;
     error_type := "OrderNotFound";
     function_name := "ChargebackService.processChargeback";
     er_order_id := Some (d_order_id dispute);
     er_dispute_id := Some (d_id dispute);
     er_customer_email := Some "email@not.identified.com";
     stack_trace := None;
     request_data := None;
     environment := environmentOf request |}.

(** The body of the [try] block of [processChargeback]. *)
Definition processChargeback_try
  (dispute : ShopifyDispute) (request : option HttpRequest) : M ProcessResult :=
  available <- get_dbAvailable ;;
  when (negb available)
       (connected <- testConnection w ;; set_dbAvailable connected) ;;
  order <- getOrder w (d_order_id dispute) ;;
  match order with
  | None =>
      available <- get_dbAvailable ;;
      when available
           (insertErrorRecord w (orderNotFoundRecord dispute request) ;; ret tt) ;;
      (* no chat notification when the order is not found *)
      ret {| success := false;
             statusCode := Some 404%Z;
             message := Some (orderNotFound dispute) |}
  | Some order =>
      let customerName := customerNameOf order in
      let customerEmail :=
        Js.or_else (customerEmailOf order) "email@not.identified.com" in
      let customerTags := customerTagsOf order in
      let orderName := orderNameOf order dispute in
      match customerTags with
      | JsString currentTags =>
          let tagResult := applyTagLogic currentTags in
          finalTags <-
            (if shouldUpdate tagResult then
               match o_customer order with
               | Some customer =>
                   updateSuccess <-
                     updateCustomerTags w (c_id customer) (newTags tagResult) ;;
                   ret (if updateSuccess then newTags tagResult else currentTags)
               | None => ret currentTags
               end
             else ret currentTags) ;;
          available <- get_dbAvailable ;;
          when available
               (insertWebhookRecord w
                  (webhookRecord dispute customerName customerEmail
                                 tagResult currentTags finalTags) ;;
                ret tt) ;;
          sendWebhookNotification w (Some dispute) (Some (action tagResult))
            (Some customerName) (Some customerEmail) (Some orderName) ;;
          ret {| success := true;
                 statusCode := Some 200%Z;
                 message := Some "Chargeback processed successfully" |}
      | _ =>
          (* [currentTags.includes] on a value that is not a string *)
          throw includesNotAFunction
      end
  end.

(** The [catch] block of [processChargeback]. *)
Definition processChargeback_catch
  (dispute : ShopifyDispute) (request : option HttpRequest) (error : JsError)
  : M ProcessResult :=
  available <- get_dbAvailable ;;
  when available
       (customerEmail <-
          try_catch
            (order <- getOrder w (d_order_id dispute) ;;
             ret (match order with
                  | Some o => Js.or_else (customerEmailOf o) "email@not.identified.com"
                  | None => "email@not.identified.com"
                  end))
            (fun _ => ret "email@not.identified.com") ;;
        insertErrorRecord w
          (processingErrorRecord dispute request error customerEmail) ;;
        ret tt) ;;
  sendWebhookNotification w (Some dispute) (Some "Failed to process chargeback")
    None None None ;;
  ret {| success := false;
         statusCode := Some 500%Z;
         message := Some "Internal server error" |}.

Definition processChargeback
  (dispute : ShopifyDispute) (request : option HttpRequest) : M ProcessResult :=
  try_catch (processChargeback_try dispute request)
            (processChargeback_catch dispute request).

(** [ChargebackService.close] *)
Definition close : M unit :=
  available <- get_dbAvailable ;;
  when available (databaseClose).

End ChargebackService.

(** ** [ChargebackWebhook/index.ts] *)

Module Json.

Definition dquote : ascii := ascii_of_nat 34.
Definition backslash : ascii := ascii_of_nat 92.

Definition hex_digit (n : nat) : ascii :=
  if (n <? 10)%nat then ascii_of_nat (48 + n) else ascii_of_nat (87 + n).

(** The escape of one code unit inside a JSON string literal. *)
Definition escape (c : ascii) : string :=
  let n := nat_of_ascii c in
  if (n =? 34)%nat then String backslash (String dquote EmptyString)
  else if (n =? 92)%nat then String backslash (String backslash EmptyString)
  else if (n =? 8)%nat then String backslash "b"
  else if (n =? 9)%nat then String backslash "t"
  else if (n =? 10)%nat then String backslash "n"
  else if (n =? 12)%nat then String backslash "f"
  else if (n =? 13)%nat then String backslash "r"
  else if (n <? 32)%nat then
    String backslash
      ("u00" ++ String (hex_digit (n / 16)) (String (hex_digit (n mod 16)) EmptyString))
  else String c EmptyString.

Fixpoint escape_all (s : string) : string :=
  match s with
  | EmptyString => EmptyString
  | String c s' => escape c ++ escape_all s'
  end.

(** [JSON.stringify(s)] for a string [s]. *)
Definition quote (s : string) : string :=
  String dquote (escape_all s ++ String dquote EmptyString).

End Json.

(** [s.replace(/[\x00-\x1F\x7F-\x9F]/g, '')] *)
Definition is_control (c : ascii) : bool :=
  let n := nat_of_ascii c in
  (n <=? 31)%nat || ((127 <=? n)%nat && (n <=? 159)%nat).

Fixpoint strip_control (s : string) : string :=
  match s with
  | EmptyString => EmptyString
  | String c s' => if is_control c then strip_control s' else String c (strip_control s')
  end.

(** [s.replace(/c/g, r)] for a single character [c]. *)
Fixpoint replace_char (c : ascii) (r : string) (s : string) : string :=
  match s with
  | EmptyString => EmptyString
  | String a s' =>
      if Ascii.eqb a c then r ++ replace_char c r s'
      else String a (replace_char c r s')
  end.

Definition LF : ascii := ascii_of_nat 10.
Definition CR : ascii := ascii_of_nat 13.
Definition TAB : ascii := ascii_of_nat 9.

(** The chain of four [replace] calls of [sanitizeRequestData]. *)
Definition sanitized (data : string) : string :=
  replace_char TAB (String Json.backslash "t")
    (replace_char CR (String Json.backslash "r")
       (replace_char LF (String Json.backslash "n")
          (strip_control data))).

(** [JSON.stringify({ original_data, length, error })] *)
Definition wrapInvalid (original_data : string) (len : nat) : string :=
  "{" ++ Json.quote "original_data" ++ ":" ++ Json.quote original_data
  ++ "," ++ Json.quote "length" ++ ":" ++ Js.string_of_Z (Z.of_nat len)
  ++ "," ++ Json.quote "error" ++ ":" ++ Json.quote "Invalid JSON data" ++ "}".

Record HttpResponseInit := mkResponse {
  status : Z;
  body : option string
}.

Section Handler.

Variable rt : Runtime.
Variable env : ProcessEnv.
Variable w : World.

Definition sanitizeRequestData (data : string) : string :=
  match JSON_parse rt data with
  | SyntaxError _ => wrapInvalid (sanitized data) (String.length data)
  | _ => data
  end.

Definition persistError (errorData : ErrorRecord) : M unit :=
  try_catch
    (available <- testConnection w ;;
     when available (insertErrorRecord w errorData ;; ret tt))
    (fun _ => ret tt).

(** [n || d] for an optional number. *)
Definition number_or (n : option Z) (d : Z) : Z :=
  match n with
  | Some z => if (z =? 0)%Z then d else z
  | None => d
  end.

Definition handlerError (code : Z) (msg kind : string) (request : HttpRequest)
  : ErrorRecord :=
  {| http_code := code;
     error_message := msg;
     error_type := kind;
     function_name := "ChargebackWebhook.handler";
     er_order_id := None;
     er_dispute_id := None;
     er_customer_email := None;
     stack_trace := None;
     request_data := None;
     environment := getEnvironment request |}.

Definition invalidSignatureRecord (request : HttpRequest) : ErrorRecord :=
  handlerError 401 "Invalid webhook signature" "InvalidSignature" request.

Definition unsupportedTopicRecord (request : HttpRequest) : ErrorRecord :=
  handlerError 400 "Webhook is not a chargeback type" "UnsupportedWebhookType" request.

Definition invalidDomainRecord (request : HttpRequest) : ErrorRecord :=
  handlerError 403 "Invalid shop domain" "InvalidShopDomain" request.

Definition jsonParseRecord (request : HttpRequest) (parseMessage : string)
  : ErrorRecord :=
  {| http_code := 400;
     error_message := "JSON parse error: " ++ parseMessage;
     error_type := "JSONParseError";
     function_name := "ChargebackWebhook.handler";
     er_order_id := None;
     er_dispute_id := None;
     er_customer_email := None;
     stack_trace := None;
     request_data := Some (sanitizeRequestData (text request));
     environment := getEnvironment request |}.

Definition unsupportedTypeRecord (request : HttpRequest) (dispute : ShopifyDispute)
  : ErrorRecord :=
  {| http_code := 400;
     error_message := "Unsupported dispute type: " ++ d_type dispute;
     error_type := "UnsupportedDisputeType";
     function_name := "ChargebackWebhook.handler";
     er_order_id := None;
     er_dispute_id := Some (d_id dispute);
     er_customer_email := None;
     stack_trace := None;
     request_data := Some (sanitizeRequestData (JSON_stringify rt dispute));
     environment := getEnvironment request |}.

Definition processingFailureRecord (request : HttpRequest)
  (dispute : ShopifyDispute) (result : ProcessResult) : ErrorRecord :=
  {| http_code := number_or (statusCode result) 500;
     error_message := Js.or_else (message result) "Failed to process chargeback";
     error_type := "ProcessingError";
     function_name := "ChargebackWebhook.handler";
     er_order_id := Some (d_order_id dispute);
     er_dispute_id := Some (d_id dispute);
     er_customer_email := None;
     stack_trace := None;
     request_data := None;
     environment := getEnvironment request |}.

Definition generalErrorRecord (request : HttpRequest) (error : JsError)
  : ErrorRecord :=
  {| http_code := 500;
     error_message := err_message error;
     error_type := err_name error;
     function_name := "ChargebackWebhook.handler";
     er_order_id := None;
     er_dispute_id := None;
     er_customer_email := Some "email@not.identified.com";
     stack_trace := Some (err_stack error);
     request_data := None;
     environment := getEnvironment request |}.

(** The body of the handler's [try] block. *)
Definition handler_try (request : HttpRequest) : M HttpResponseInit :=
  let body := text request in
  isValid <- lift (validateShopifyWebhook rt env request (Some body)) ;;
  if negb isValid then
    persistError (invalidSignatureRecord request) ;;
    sendWebhookNotification w None (Some "Invalid webhook signature") None None None ;;
    ret {| status := 401; body := Some "Unauthorized" |}
  else if negb (validateChargebackWebhook request) then
    persistError (unsupportedTopicRecord request) ;;
    ret {| status := 400; body := Some "Unsupported webhook type" |}
  else if negb (validateShopDomain env request) then
    persistError (invalidDomainRecord request) ;;
    ret {| status := 403; body := Some "Forbidden" |}
  else
    match JSON_parse rt body with
    | SyntaxError parseMessage =>
        persistError (jsonParseRecord request parseMessage) ;;
        sendWebhookNotification w None (Some ("JSON parse error: " ++ parseMessage))
          None None None ;;
        ret {| status := 400; body := Some "Invalid JSON" |}
    | ParsedNull =>
        (* the first field read for the log, [dispute.id] *)
        throw nullDispute
    | ParsedDispute dispute =>
        if negb (String.eqb (d_type dispute) "chargeback") then
          persistError (unsupportedTypeRecord request dispute) ;;
          sendWebhookNotification w (Some dispute)
            (Some ("Unsupported dispute type: " ++ d_type dispute)) None None None ;;
          ret {| status := 400; body := Some "Unsupported dispute type" |}
        else
          result <- processChargeback rt w dispute (Some request) ;;
          if success result then
            ret {| status := 200; body := Some "Webhook processed successfully" |}
          else if match statusCode result with
                  | Some code => (code =? 404)%Z
                  | None => false
                  end then
            (* order not found: nothing more is persisted or sent *)
            ret {| status := 404; body := message result |}
          else
            persistError (processingFailureRecord request dispute result) ;;
            sendWebhookNotification w (Some dispute) (Some "Failed to process chargeback")
              None None None ;;
            ret {| status := number_or (statusCode result) 500;
                   body := Some (Js.or_else (message result) "Internal server error") |}
    end.

(** The handler's [catch] block. *)
Definition handler_catch (request : HttpRequest) (error : JsError)
  : M HttpResponseInit :=
  persistError (generalErrorRecord request error) ;;
  sendWebhookNotification w None (Some ("General error: " ++ err_message error))
    None None None ;;
  try_catch close (fun _ => ret tt) ;;
  ret {| status := 500; body := Some "Internal server error" |}.

Definition handler (request : HttpRequest) : M HttpResponseInit :=
  try_catch (handler_try request) (handler_catch request).

(** One invocation, from a fresh [ChargebackService]. *)
Definition handle (request : HttpRequest) : Res HttpResponseInit * list Effect :=
  let (r, m) := handler request initial in (r, trace m).

End Handler.

(** ** Reading a trace *)

Fixpoint errorRecords (tr : list Effect) : list ErrorRecord :=
  match tr with
  | [] => []
  | InsertErrorRecord r :: tr' => r :: errorRecords tr'
  | _ :: tr' => errorRecords tr'
  end.

Fixpoint webhookRecords (tr : list Effect) : list WebhookRecord :=
  match tr with
  | [] => []
  | InsertWebhookRecord r :: tr' => r :: webhookRecords tr'
  | _ :: tr' => webhookRecords tr'
  end.

Definition is_notification (e : Effect) : bool :=
  match e with
  | SendWebhookNotification _ _ _ _ _ => true
  | _ => false
  end.

Definition is_persistence (e : Effect) : bool :=
  match e with
  | InsertWebhookRecord _ | InsertErrorRecord _ => true
  | _ => false
  end.

Definition is_commerce (e : Effect) : bool :=
  match e with
  | GetOrder _ | UpdateCustomerTags _ _ => true
  | _ => false
  end.

Definition is_tag_update (e : Effect) : bool :=
  match e with
  | UpdateCustomerTags _ _ => true
  | _ => false
  end.

Definition notifications (tr : list Effect) : list Effect := filter is_notification tr.
Definition commerceCalls (tr : list Effect) : list Effect := filter is_commerce tr.

(** No persistence attempt comes after a notification. *)
Fixpoint persistThenNotify (tr : list Effect) : bool :=
  match tr with
  | [] => true
  | e :: tr' =>
      (if is_notification e then negb (existsb is_persistence tr') else true)
      && persistThenNotify tr'
  end.

(** Every persistence attempt of [tr] comes before every notification. *)
Definition PersistBeforeNotify (tr : list Effect) : Prop :=
  forall (pre : list Effect) n post p,
    tr = (pre ++ n :: post)%list ->
    is_notification n = true -> In p post -> is_persistence p = false.


(** The customer's tags have the declared type [tags?: string]. *)
Definition tagsDeclared (v : JsValue) : bool :=
  match v with
  | JsUndefined | JsString _ => true
  | _ => false
  end.

(** Every order the platform returns has tags of the declared type. *)
Definition Declared (w : World) : Prop :=
  forall orderId order customer,
    shop_order w orderId = Some order ->
    o_customer order = Some customer ->
    tagsDeclared (c_tags customer) = true.

(** The request gets past the signature, topic and domain checks. *)
Definition passesGates (rt : Runtime) (env : ProcessEnv) (request : HttpRequest)
  : bool :=
  match validateShopifyWebhook rt env request (Some (text request)) with
  | Ok true => validateChargebackWebhook request && validateShopDomain env request
  | _ => false
  end.

(** ** Sample inputs *)

Module Sample.

(** [JSON.stringify] of a dispute whose keys come in the declared order. *)
Definition stringifyDispute (d : ShopifyDispute) : string :=
  let num k z := Json.quote k ++ ":" ++ Js.string_of_Z z in
  let str k s := Json.quote k ++ ":" ++ Json.quote s in
  "{" ++ num "id" (d_id d)
  ++ "," ++ num "order_id" (d_order_id d)
  ++ "," ++ str "amount" (d_amount d)
  ++ "," ++ str "currency" (d_currency d)
  ++ "," ++ str "reason" (d_reason d)
  ++ "," ++ str "status" (d_status d)
  ++ "," ++ str "type" (d_type d)
  ++ "," ++ str "created_at" (d_created_at d)
  ++ "," ++ str "network_reason_code" (d_network_reason_code d)
  ++ "," ++ str "evidence_due_by" (d_evidence_due_by d) ++ "}".

Definition chargeback : ShopifyDispute :=
  {| d_id := 9001; d_order_id := 4501; d_amount := "49.90"; d_currency := "USD";
     d_reason := "fraudulent"; d_status := "needs_response"; d_type := "chargeback";
     d_created_at := "2025-07-01T10:00:00-04:00"; d_network_reason_code := "4837";
     d_evidence_due_by := "2025-07-15T19:00:00-04:00" |}.

Definition inquiry : ShopifyDispute :=
  {| d_id := 9002; d_order_id := 4501; d_amount := "49.90"; d_currency := "USD";
     d_reason := "fraudulent"; d_status := "needs_response"; d_type := "inquiry";
     d_created_at := "2025-07-01T10:00:00-04:00"; d_network_reason_code := "4837";
     d_evidence_due_by := "2025-07-15T19:00:00-04:00" |}.

(** A body that is not JSON and ends with a line feed. *)
Definition brokenBody : string := "not json" ++ String LF EmptyString.

(** The digest of body ["b"] under secret ["s"], as HMAC-SHA256 gives it. *)
Definition digest_s_b : string := "J+avdKBhpfQNbQF2N2rjM3aOR3/fHR11aCiq8Rkv1mQ=".

(** The same digest written without its padding character. *)
Definition digest_s_b_unpadded : string := "J+avdKBhpfQNbQF2N2rjM3aOR3/fHR11aCiq8Rkv1mQ".

(** A runtime that answers on the sample inputs: it knows the digest above
    (any other pair, which no example signs, gets the empty text), the two
    sample disputes and [null]. *)
Definition runtime : Runtime :=
  {| hmacSha256Base64 := fun secret body =>
       if String.eqb secret "s" && String.eqb body "b" then digest_s_b else "";
     JSON_parse := fun s =>
       if String.eqb s (stringifyDispute chargeback) then ParsedDispute chargeback
       else if String.eqb s (stringifyDispute inquiry) then ParsedDispute inquiry
       else if String.eqb s "null" then ParsedNull
       else SyntaxError "Unexpected token";
     JSON_stringify := stringifyDispute |}.

Definition env : ProcessEnv :=
  {| SHOPIFY_WEBHOOK_SECRET := Some "s";
     SHOPIFY_SHOP_DOMAIN := Some "shop.myshopify.com" |}.

Definition request (topic body : string) : HttpRequest :=
  {| headers := [("Host", "fn.azurewebsites.net");
                 ("X-Shopify-Topic", topic);
                 ("X-Shopify-Shop-Domain", "shop.myshopify.com")];
     text := body |}.

Definition signed (signature body : string) : HttpRequest :=
  {| headers := [("X-Shopify-Hmac-Sha256", signature);
                 ("X-Shopify-Topic", "disputes/create");
                 ("X-Shopify-Shop-Domain", "shop.myshopify.com")];
     text := body |}.

Definition chargebackRequest : HttpRequest :=
  request "disputes/create" (stringifyDispute chargeback).

Definition inquiryRequest : HttpRequest :=
  request "disputes/create" (stringifyDispute inquiry).

Definition customer (tags : JsValue) : ShopifyCustomer :=
  {| c_id := 77; c_first_name := Some "Ana"; c_last_name := Some "Souza";
     c_email := Some "ana@example.com"; c_tags := tags |}.

Definition order (c : option ShopifyCustomer) : ShopifyOrder :=
  {| o_id := 4501; o_name := "#SP22774"; o_customer := c |}.

(** A world with the database up, chat working, and the given answers of the
    commerce platform. *)
Definition world (found : option ShopifyOrder) (puts : bool) : World :=
  {| db_connects := true; db_executes := true;
     shop_order := fun _ => found;
     shop_puts := fun _ _ => puts;
     slack_posts := true; now := 0 |}.

End Sample.

(** ** The shape of the traces *)

(** What one call of [persistError] adds to the trace. *)
Definition persistErrorTrace (w : World) (errorData : ErrorRecord) : list Effect :=
  TestConnection :: if db_connects w then [InsertErrorRecord errorData] else [].

(** The tag update requested for [order] whose current tags are
    [currentTags], and the value of [finalTags] after it. *)
Definition tagUpdateTrace (w : World) (order : ShopifyOrder) (currentTags : string)
  : list Effect :=
  let tagResult := applyTagLogic currentTags in
  if shouldUpdate tagResult then
    match o_customer order with
    | Some customer => [UpdateCustomerTags (c_id customer) (newTags tagResult)]
    | None => []
    end
  else [].

Definition finalTagsOf (w : World) (order : ShopifyOrder) (currentTags : string)
  : string :=
  let tagResult := applyTagLogic currentTags in
  if shouldUpdate tagResult then
    match o_customer order with
    | Some customer =>
        if shop_puts w (c_id customer) (newTags tagResult)
        then newTags tagResult else currentTags
    | None => currentTags
    end
  else currentTags.

Definition successNotification (dispute : ShopifyDispute) (order : ShopifyOrder)
  (currentTags : string) : Effect :=
  SendWebhookNotification (Some dispute)
    (Some (action (applyTagLogic currentTags)))
    (Some (customerNameOf order))
    (Some (Js.or_else (customerEmailOf order) "email@not.identified.com"))
    (Some (orderNameOf order dispute)).

Definition failureNotification (dispute : ShopifyDispute) : Effect :=
  SendWebhookNotification (Some dispute) (Some "Failed to process chargeback")
    None None None.

(** The notifications sent by the handler itself, with the empty object
    [{}] in place of a dispute where it has none. *)
Definition signatureNotification : Effect :=
  SendWebhookNotification None (Some "Invalid webhook signature") None None None.

Definition parseNotification (parseMessage : string) : Effect :=
  SendWebhookNotification None (Some ("JSON parse error: " ++ parseMessage))
    None None None.

Definition typeNotification (dispute : ShopifyDispute) : Effect :=
  SendWebhookNotification (Some dispute)
    (Some ("Unsupported dispute type: " ++ d_type dispute)) None None None.

Definition generalNotification (error : JsError) : Effect :=
  SendWebhookNotification None (Some ("General error: " ++ err_message error))
    None None None.

(** ** The paths through the handler *)

(** One name per terminal outcome, after the [error_type] it records. *)
Inductive Path :=
| InvalidSignature
| UnsupportedWebhookType
| InvalidShopDomain
| JSONParseError
| GeneralError            (* the handler's own [catch] *)
| UnsupportedDisputeType
| OrderNotFound
| Processed
| ProcessingError.        (* the pipeline's [catch] *)

(** The path an event takes, read off the conditions in the order the
    handler and the pipeline test them. *)
Definition pathOf (rt : Runtime) (env : ProcessEnv) (w : World)
  (request : HttpRequest) : Path :=
  match validateShopifyWebhook rt env request (Some (text request)) with
  | Ok true =>
      if negb (validateChargebackWebhook request) then UnsupportedWebhookType
      else if negb (validateShopDomain env request) then InvalidShopDomain
      else
        match JSON_parse rt (text request) with
        | SyntaxError _ => JSONParseError
        | ParsedNull => GeneralError
        | ParsedDispute dispute =>
            if negb (String.eqb (d_type dispute) "chargeback")
            then UnsupportedDisputeType
            else
              match shop_order w (d_order_id dispute) with
              | None => OrderNotFound
              | Some order =>
                  match customerTagsOf order with
                  | JsString _ => Processed
                  | _ => ProcessingError
                  end
              end
        end
  | _ => InvalidSignature
  end.


(** ** What an outcome leaves behind *)

(** A rejection: a response of status [st], no processed row, one error row
    when the database is reachable and none otherwise, and [sent]
    notifications. *)
Definition Rejected (w : World) (response : Res HttpResponseInit)
  (tr : list Effect) (st : Z) (sent : nat) : Prop :=
  (exists b, response = Ok {| status := st; body := b |})
  /\ webhookRecords tr = []
  /\ List.length (errorRecords tr) = (if db_connects w then 1 else 0)%nat
  /\ List.length (notifications tr) = sent.

(** A processed event: status 200, no error row, one processed row when the
    database is reachable, one notification. *)
Definition Accepted (w : World) (response : Res HttpResponseInit)
  (tr : list Effect) : Prop :=
  (exists b, response = Ok {| status := 200; body := b |})
  /\ errorRecords tr = []
  /\ List.length (webhookRecords tr) = (if db_connects w then 1 else 0)%nat
  /\ List.length (notifications tr) = 1%nat.
(** * Further code of the repository *)

(** ** The other exports of [utils/webhookValidator.ts] *)

Definition requiredHeaders : list string :=
  ["x-shopify-shop-domain"; "x-shopify-topic"; "x-shopify-api-version"].

Definition validateWebhookHeaders (request : HttpRequest) : bool :=
  forallb (fun header => negb (Js.falsy (headers_get request header)))
          requiredHeaders.

Record WebhookInfo := mkWebhookInfo {
  shopDomain : string;
  topic : string;
  apiVersion : string;
  webhookId : string;
  eventId : string;
  triggeredAt : string
}.

Definition getWebhookInfo (request : HttpRequest) : WebhookInfo :=
  {| shopDomain := Js.or_else (headers_get request "x-shopify-shop-domain") "";
     topic := Js.or_else (headers_get request "x-shopify-topic") "";
     apiVersion := Js.or_else (headers_get request "x-shopify-api-version") "";
     webhookId := Js.or_else (headers_get request "x-shopify-webhook-id") "";
     eventId := Js.or_else (headers_get request "x-shopify-event-id") "";
     triggeredAt := Js.or_else (headers_get request "x-shopify-triggered-at") "" |}.

(** ** The validator that compares hexadecimal digests

    The second [webhookValidator.ts] of the sources differs from the first in
    the encoding only: the digest is taken with [digest('hex')] and both
    texts are read with [Buffer.from(text, 'hex')]. *)

Module Hex.

Definition unhex (c : ascii) : option Z :=
  let n := Z.of_nat (nat_of_ascii c) in
  if (48 <=? n)%Z && (n <=? 57)%Z then Some (n - 48)%Z
  else if (97 <=? n)%Z && (n <=? 102)%Z then Some (n - 87)%Z
  else if (65 <=? n)%Z && (n <=? 70)%Z then Some (n - 55)%Z
  else None.

(** [Buffer.from(s, 'hex')]: one byte per pair of hexadecimal digits; decoding
    stops at the first pair that is not one, and a last single character is
    dropped. *)
Fixpoint decode (s : string) : list Z :=
  match s with
  | String a (String b rest) =>
      match unhex a, unhex b with
      | Some x, Some y => (16 * x + y)%Z :: decode rest
      | _, _ => []
      end
  | _ => []
  end.

Section Validator.

(* crypto.createHmac('sha256', secret).update(body, 'utf8').digest('hex') *)
Variable hmacSha256Hex : string -> string -> string.
Variable env : ProcessEnv.

Definition validateShopifyWebhook_try
  (request : HttpRequest) (body : option string) : Res bool :=
  let webhookSecret := SHOPIFY_WEBHOOK_SECRET env in
  if Js.falsy webhookSecret then Ok false
  else
    let secret := Js.or_else webhookSecret "" in
    let hmacHeader := headers_get request "X-Shopify-Hmac-Sha256" in
    let requestBody := Js.or_else body (text request) in
    if Js.falsy hmacHeader then Ok true
    else
      let expectedHmac := hmacSha256Hex secret requestBody in
      timingSafeEqual (decode (Js.or_else hmacHeader "")) (decode expectedHmac).

Definition validateShopifyWebhook
  (request : HttpRequest) (body : option string) : Res bool :=
  match validateShopifyWebhook_try request body with
  | Ok isValid => Ok isValid
  | Throw _ => Ok false
  end.

End Validator.

End Hex.

(** ** [services/shopifyService.ts], down to the HTTP client *)

Module ShopifyService.

(** The fields set by the constructor from [process.env]. *)
Record Config := mkConfig {
  cfg_shopDomain : string;
  cfg_accessToken : string;
  cfg_apiVersion : string
}.

Definition fromEnv
  (SHOPIFY_SHOP_DOMAIN SHOPIFY_ACCESS_TOKEN SHOPIFY_API_VERSION : option string)
  : Config :=
  {| cfg_shopDomain := Js.or_else SHOPIFY_SHOP_DOMAIN "";
     cfg_accessToken := Js.or_else SHOPIFY_ACCESS_TOKEN "";
     cfg_apiVersion := Js.or_else SHOPIFY_API_VERSION "2025-07" |}.

(** A rejected request: [error.response?.status] and [error.message]. *)
Record AxiosError := mkAxiosError {
  response_status : option Z;
  axios_message : string
}.

(** The HTTP client.  A resolved [get] carries [response.data.order] when
    [response.data] and it are truthy; a resolved [put] carries nothing the
    service reads. *)
Record Axios := mkAxios {
  axios_get : string -> list (string * string)
              -> option ShopifyOrder + AxiosError;
  axios_put : string -> Z -> string -> list (string * string)
              -> unit + AxiosError
}.

Section Service.

Variable cfg : Config.
Variable axios : Axios.

Definition requestHeaders : list (string * string) :=
  [("X-Shopify-Access-Token", cfg_accessToken cfg);
   ("Content-Type", "application/json")].

Definition orderUrl (orderId : Z) : string :=
  "https://" ++ cfg_shopDomain cfg ++ "/admin/api/" ++ cfg_apiVersion cfg
  ++ "/orders/" ++ Js.string_of_Z orderId ++ ".json".

Definition customerUrl (customerId : Z) : string :=
  "https://" ++ cfg_shopDomain cfg ++ "/admin/api/" ++ cfg_apiVersion cfg
  ++ "/customers/" ++ Js.string_of_Z customerId ++ ".json".

(** What [getOrder] resolves to. *)
Definition getOrder_result (orderId : Z) : option ShopifyOrder :=
  match axios_get axios (orderUrl orderId) requestHeaders with
  | inl order => order
  | inr _ => None      (* logged, whatever the status *)
  end.

(** What [updateCustomerTags] resolves to; the body sent is
    [{ customer: { id, tags } }]. *)
Definition updateCustomerTags_result (customerId : Z) (tags : string) : bool :=
  match axios_put axios (customerUrl customerId) customerId tags requestHeaders with
  | inl _ => true
  | inr _ => false
  end.

(** The world in which the commerce platform is this service over [axios]. *)
Definition worldOf (base : World) : World :=
  {| db_connects := db_connects base;
     db_executes := db_executes base;
     shop_order := getOrder_result;
     shop_puts := updateCustomerTags_result;
     slack_posts := slack_posts base;
     now := now base |}.

End Service.

End ShopifyService.

(** ** [services/databaseService.ts]: the statements and their values *)

Module Sql.

Inductive Value :=
| Null
| Number (z : Z)
| Float (x : JsNumberOf)
| Text (s : string)
| Date (t : Z).

(** [n || null] *)
Definition number_or_null (o : option Z) : Value :=
  match o with
  | Some z => if (z =? 0)%Z then Null else Number z
  | None => Null
  end.

(** [s || null] *)
Definition text_or_null (o : option string) : Value :=
  match o with
  | Some s => if Js.truthy s then Text s else Null
  | None => Null
  end.

Fixpoint count_char (c : ascii) (s : string) : nat :=
  match s with
  | EmptyString => O
  | String a s' => (if Ascii.eqb a c then 1 else 0) + count_char c s'
  end.

Definition insertWebhookRecord_query : string :=
  "
        INSERT INTO tab_wbk_itm (
          customer_name, customer_email, order_id, webhook_json, action,
          customer_tags_before, customer_tags_after, dispute_id,
          dispute_amount, dispute_currency, dispute_reason, dispute_status,
          processed_at
        ) VALUES (?, ?, ?, ?, ?, ?, ?, ?, ?, ?, ?, ?, ?)
      ".

Definition insertErrorRecord_query : string :=
  "
        INSERT INTO tab_sis_err (
          http_code, error_message, error_type, function_name,
          order_id, dispute_id, customer_email, stack_trace,
          request_data, environment
        ) VALUES (?, ?, ?, ?, ?, ?, ?, ?, ?, ?)
      ".

Definition insertWebhookRecord_values (record : WebhookRecord) : list Value :=
  [Text (customer_name record);
   Text (customer_email record);
   Number (order_id record);
   Text (webhook_json record);
   Text (wr_action record);
   Text (customer_tags_before record);
   Text (customer_tags_after record);
   Number (dispute_id record);
   Float (dispute_amount record);
   Text (dispute_currency record);
   Text (dispute_reason record);
   Text (dispute_status record);
   Date (processed_at record)].

Definition insertErrorRecord_values (record : ErrorRecord) : list Value :=
  [Number (http_code record);
   Text (error_message record);
   Text (error_type record);
   Text (function_name record);
   number_or_null (er_order_id record);
   number_or_null (er_dispute_id record);
   text_or_null (er_customer_email record);
   text_or_null (stack_trace record);
   text_or_null (request_data record);
   Text (environment record)].

End Sql.

(** ** The [status] function of [ChargebackWebhook/index.ts] *)

Module Status.

Record Row := mkRow { total : Z }.

Record Metrics := mkMetrics {
  total_chargebacks : Z;
  chargebacks_today : Z;
  chargebacks_this_month : Z;
  errors_today : Z;
  errors_this_month : Z
}.

Definition noMetrics : Metrics :=
  {| total_chargebacks := 0; chargebacks_today := 0; chargebacks_this_month := 0;
     errors_today := 0; errors_this_month := 0 |}.

Definition totalChargebacksQuery : string :=
  "
            SELECT COUNT(" ++ "*) as total 
            FROM tab_wbk_itm 
            WHERE dispute_id IS NOT NULL
        ".

Definition chargebacksTodayQuery : string :=
  "
            SELECT COUNT(" ++ "*) as total 
            FROM tab_wbk_itm 
            WHERE dispute_id IS NOT NULL 
            AND DATE(data) = CURDATE()
        ".

Definition chargebacksThisMonthQuery : string :=
  "
            SELECT COUNT(" ++ "*) as total 
            FROM tab_wbk_itm 
            WHERE dispute_id IS NOT NULL 
            AND YEAR(data) = YEAR(CURDATE()) 
            AND MONTH(data) = MONTH(CURDATE())
        ".

Definition errorsTodayQuery : string :=
  "
            SELECT COUNT(" ++ "*) as total 
            FROM tab_sis_err 
            WHERE DATE(data) = CURDATE()
        ".

Definition errorsThisMonthQuery : string :=
  "
            SELECT COUNT(" ++ "*) as total 
            FROM tab_sis_err 
            WHERE YEAR(data) = YEAR(CURDATE()) 
            AND MONTH(data) = MONTH(CURDATE())
        ".


Inductive DatabaseStatus :=
| Disconnected
| Connected
| DatabaseError (message : string).

Inductive ShopifyStatus :=
| ShopifyNotConfigured
| ShopifyConfigured (domain : string).

Inductive SlackStatus :=
| SlackNotConfigured
| SlackConfigured.

(** The [statusResponse] object; the response body is its JSON text. *)
Record StatusResponse := mkStatusResponse {
  overall : string;                 (* [status] *)
  timestamp : Z;
  version : string;
  detected : string;                (* [environment] *)
  database : DatabaseStatus;
  shopify : ShopifyStatus;
  slack : SlackStatus;
  metrics : Metrics;
  start_time : Z;
  uptime_seconds : Z
}.

Inductive Payload :=
| Report (statusResponse : StatusResponse)
| Unhealthy (error : string).

Record Response := mkStatusHttp {
  code : Z;
  payload : Payload
}.

(** The entries of [process.env] the function reads besides the shop domain. *)
Record Tokens := mkTokens {
  SHOPIFY_ACCESS_TOKEN : option string;
  SLACK_BOT_TOKEN : option string
}.

Section Function.

Variable env : ProcessEnv.
Variable tokens : Tokens.
Variable w : World.
(* [pool.execute(sql, [])] as [DatabaseService.query] passes it on *)
Variable execute : string -> Res (list Row).
Variable START_TIME : Z.

(** [DatabaseService.query]: logs and rethrows. *)
Definition query (sql : string) : Res (list Row) :=
  match execute sql with
  | Ok rows => Ok rows
  | Throw error => Throw error
  end.

(** [rows[0]?.total || 0] *)
Definition firstTotal (rows : list Row) : Z :=
  match rows with
  | row :: _ => total row
  | [] => 0
  end.

(** [getMetrics]: the five queries are all issued, and [Promise.all] rejects
    as soon as one of them does. *)
Definition getMetrics : Metrics :=
  match query totalChargebacksQuery, query chargebacksTodayQuery,
        query chargebacksThisMonthQuery, query errorsTodayQuery,
        query errorsThisMonthQuery with
  | Ok totalChargebacks, Ok chargebacksToday, Ok chargebacksThisMonth,
    Ok errorsToday, Ok errorsThisMonth =>
      {| total_chargebacks := firstTotal totalChargebacks;
         chargebacks_today := firstTotal chargebacksToday;
         chargebacks_this_month := firstTotal chargebacksThisMonth;
         errors_today := firstTotal errorsToday;
         errors_this_month := firstTotal errorsThisMonth |}
  | _, _, _, _, _ => noMetrics
  end.

(** [await databaseService.testConnection()]: it answers with a boolean and
    does not throw. *)
Definition awaitTestConnection : Res bool := Ok (db_connects w).

Definition set_database (r : StatusResponse) (d : DatabaseStatus) : StatusResponse :=
  {| overall := overall r; timestamp := timestamp r; version := version r;
     detected := detected r; database := d; shopify := shopify r;
     slack := slack r; metrics := metrics r; start_time := start_time r;
     uptime_seconds := uptime_seconds r |}.

Definition set_metrics (r : StatusResponse) (m : Metrics) : StatusResponse :=
  {| overall := overall r; timestamp := timestamp r; version := version r;
     detected := detected r; database := database r; shopify := shopify r;
     slack := slack r; metrics := m; start_time := start_time r;
     uptime_seconds := uptime_seconds r |}.

Definition set_overall (r : StatusResponse) (s : string) : StatusResponse :=
  {| overall := s; timestamp := timestamp r; version := version r;
     detected := detected r; database := database r; shopify := shopify r;
     slack := slack r; metrics := metrics r; start_time := start_time r;
     uptime_seconds := uptime_seconds r |}.

(** The object as first built. *)
Definition initialResponse (request : HttpRequest) : StatusResponse :=
  {| overall := "running";
     timestamp := now w;
     version := "1.0.0";
     detected := getEnvironment request;
     database := Disconnected;
     shopify := ShopifyNotConfigured;
     slack := SlackNotConfigured;
     metrics := noMetrics;
     start_time := START_TIME;
     uptime_seconds := ((now w - START_TIME) / 1000)%Z |}.

Definition set_shopify (r : StatusResponse) (s : ShopifyStatus) : StatusResponse :=
  {| overall := overall r; timestamp := timestamp r; version := version r;
     detected := detected r; database := database r; shopify := s;
     slack := slack r; metrics := metrics r; start_time := start_time r;
     uptime_seconds := uptime_seconds r |}.

Definition set_slack (r : StatusResponse) (s : SlackStatus) : StatusResponse :=
  {| overall := overall r; timestamp := timestamp r; version := version r;
     detected := detected r; database := database r; shopify := shopify r;
     slack := s; metrics := metrics r; start_time := start_time r;
     uptime_seconds := uptime_seconds r |}.

(** The body of the function's [try] block. *)
Definition handler_try (request : HttpRequest) : Res Response :=
  let r0 := initialResponse request in
  let r1 :=
    if negb (Js.falsy (SHOPIFY_SHOP_DOMAIN env))
       && negb (Js.falsy (SHOPIFY_ACCESS_TOKEN tokens))
    then set_shopify r0 (ShopifyConfigured (Js.or_else (SHOPIFY_SHOP_DOMAIN env) ""))
    else r0 in
  let r2 :=
    if negb (Js.falsy (SLACK_BOT_TOKEN tokens))
    then set_slack r1 SlackConfigured else r1 in
  let r3 :=
    match awaitTestConnection with
    | Ok _ => set_metrics (set_database r2 Connected) getMetrics
    | Throw dbError =>
        set_overall (set_database r2 (DatabaseError (err_message dbError)))
                    "degraded"
    end in
  Ok {| code := 200; payload := Report r3 |}.

Definition handler (request : HttpRequest) : Response :=
  match handler_try request with
  | Ok response => response
  | Throw error => {| code := 500; payload := Unhealthy (err_message error) |}
  end.

End Function.

End Status.

(** ** Counting in a trace *)

Definition is_connection_test (e : Effect) : bool :=
  match e with
  | TestConnection => true
  | _ => false
  end.

Definition is_close (e : Effect) : bool :=
  match e with
  | DatabaseClose => true
  | _ => false
  end.

(** ** Further sample inputs *)

Module Fixture.

Definition shopConfig : ShopifyService.Config :=
  ShopifyService.fromEnv (Some "shop.myshopify.com") (Some "token") None.

Definition serviceUnavailable : ShopifyService.AxiosError :=
  {| ShopifyService.response_status := Some 503%Z;
     ShopifyService.axios_message := "Request failed with status code 503" |}.

(** A client whose every request is rejected with status 503. *)
Definition unavailable : ShopifyService.Axios :=
  {| ShopifyService.axios_get := fun _ _ => inr serviceUnavailable;
     ShopifyService.axios_put := fun _ _ _ _ => inr serviceUnavailable |}.

(** A client that finds the sample order, with a customer tagged [vip], and
    whose every update is rejected with status 503. *)
Definition refusesUpdates : ShopifyService.Axios :=
  {| ShopifyService.axios_get := fun _ _ =>
       inl (Some (Sample.order (Some (Sample.customer (JsString "vip")))));
     ShopifyService.axios_put := fun _ _ _ _ => inr serviceUnavailable |}.

(** The digest of body ["b"] under secret ["s"] in hexadecimal, and the same
    in upper case. *)
Definition hexDigest_s_b : string :=
  "27e6af74a061a5f40d6d0176376ae333768e477fdf1d1d756828aaf1192fd664".

Definition hexDigest_s_b_upper : string :=
  "27E6AF74A061A5F40D6D0176376AE333768E477FDF1D1D756828AAF1192FD664".

Definition hmacHex (secret body : string) : string :=
  if String.eqb secret "s" && String.eqb body "b" then hexDigest_s_b else "".

End Fixture.

(** * Properties *)

(** ** Substring search *)

Lemma prefix_spec (p s : string) :
  String.prefix p s = true <-> exists b, s = p ++ b.
Proof.
  revert s; induction p as [|a p IH]; intros s; simpl.
  - destruct s; simpl; split; eauto.
  - destruct s as [|b s]; simpl.
    + split; [discriminate | intros [x Hx]; discriminate].
    + destruct (ascii_dec a b) as [->|Hne].
      * rewrite IH. split; intros [x Hx]; exists x; congruence.
      * split; [discriminate | intros [x Hx]; congruence].
Qed.

Lemma includes_spec (s p : string) :
  Js.includes s p = true <-> Js.Substring p s.
Proof.
  unfold Js.Substring. induction s as [|c s IH]; cbn [Js.includes].
  - rewrite orb_false_r, prefix_spec. split.
    + intros [b Hb]. exists "", b. exact Hb.
    + intros [a [b Hab]]. destruct a; [eauto | discriminate].
  - rewrite orb_true_iff, prefix_spec, IH. split.
    + intros [[b Hb] | [a [b Hab]]].
      * exists "", b. exact Hb.
      * exists (String c a), b. simpl. congruence.
    + intros [a [b Hab]]. destruct a as [|c' a]; simpl in Hab.
      * left. eauto.
      * right. exists a, b. congruence.
Qed.

Lemma includes_false (s p : string) :
  Js.includes s p = false <-> ~ Js.Substring p s.
Proof.
  rewrite <- includes_spec. destruct (Js.includes s p); split; congruence.
Qed.

Lemma prefix_app_false (p x t : string) (c : ascii) :
  Js.mem_char c p = false ->
  String.prefix p x = false ->
  String.prefix p (x ++ String c t) = false.
Proof.
  revert x; induction p as [|b p IH]; intros x Hc Hp.
  - destruct x; simpl in Hp; discriminate.
  - simpl in Hc. apply orb_false_elim in Hc as [Hbc Hc].
    destruct x as [|a x]; simpl in *.
    + destruct (ascii_dec b c) as [->|]; [|reflexivity].
      rewrite Ascii.eqb_refl in Hbc. discriminate.
    + destruct (ascii_dec b a); [|reflexivity]. auto.
Qed.

Lemma includes_app_false (p s t : string) (c : ascii) :
  Js.mem_char c p = false ->
  Js.includes s p = false ->
  Js.includes (String c t) p = false ->
  Js.includes (s ++ String c t) p = false.
Proof.
  intros Hc Hs Ht. induction s as [|a s IH]; [exact Ht|].
  simpl in Hs. apply orb_false_elim in Hs as [Hp Hs].
  change (String a s ++ String c t) with (String a (s ++ String c t)).
  cbn [Js.includes]. rewrite (IH Hs), orb_false_r.
  exact (prefix_app_false p (String a s) t c Hc Hp).
Qed.

Lemma includes_app_suffix (s t p : string) :
  Js.includes t p = true -> Js.includes (s ++ t) p = true.
Proof.
  rewrite !includes_spec. intros [a [b ->]]. exists (s ++ a), b.
  induction s; simpl; congruence.
Qed.

Lemma includes_truthy (s p : string) :
  Js.truthy p = true -> Js.includes s p = true -> Js.truthy s = true.
Proof.
  destruct s; [|reflexivity]. destruct p; simpl; [discriminate|discriminate].
Qed.

(** ** The tag ladder *)

Lemma applyTagLogic_risk (s : string) :
  Js.includes s "chargeback_risk" = true ->
  shouldUpdate (applyTagLogic s) = false /\ newTags (applyTagLogic s) = s.
Proof. intros H. unfold applyTagLogic. rewrite H. auto. Qed.

Lemma applyTagLogic_untagged (s : string) :
  Js.includes s "chargeback_risk" = false ->
  Js.includes s "chargeback_flag1" = false ->
  shouldUpdate (applyTagLogic s) = true /\ newTags (applyTagLogic s) = flagged s.
Proof. intros H1 H2. unfold applyTagLogic. rewrite H1, H2. auto. Qed.

Lemma applyTagLogic_flagged (s : string) :
  Js.includes s "chargeback_risk" = false ->
  Js.includes s "chargeback_flag1" = true ->
  shouldUpdate (applyTagLogic s) = true /\
  newTags (applyTagLogic s) = s ++ ", chargeback_risk".
Proof.
  intros H1 H2. unfold applyTagLogic. rewrite H1, H2. simpl.
  rewrite (includes_truthy s "chargeback_flag1"); auto.
Qed.

Lemma flagged_has_flag (s : string) :
  Js.includes (flagged s) "chargeback_flag1" = true.
Proof.
  unfold flagged. destruct (Js.truthy s); [|reflexivity].
  apply includes_app_suffix. reflexivity.
Qed.

(** Appending the first flag cannot create an occurrence of the risk tag:
    the appended text starts with a comma, which the risk tag does not
    contain. *)
Lemma flagged_no_risk (s : string) :
  Js.includes s "chargeback_risk" = false ->
  Js.includes (flagged s) "chargeback_risk" = false.
Proof.
  intros H. unfold flagged. destruct (Js.truthy s); [|reflexivity].
  apply includes_app_false; auto.
Qed.

(** C2. The tag rule follows the three cases of the ladder, stated on
    substring containment, and from a string that contains neither tag three
    successive applications add [chargeback_flag1], then [chargeback_risk],
    then change nothing. *)
Theorem applyTagLogic_ladder (s : string) :
  (Js.Substring "chargeback_risk" s ->
     shouldUpdate (applyTagLogic s) = false /\ newTags (applyTagLogic s) = s)
  /\ (~ Js.Substring "chargeback_risk" s -> ~ Js.Substring "chargeback_flag1" s ->
        shouldUpdate (applyTagLogic s) = true
        /\ newTags (applyTagLogic s)
           = match s with
             | EmptyString => "chargeback_flag1"
             | _ => s ++ ", chargeback_flag1"
             end)
  /\ (~ Js.Substring "chargeback_risk" s -> Js.Substring "chargeback_flag1" s ->
        shouldUpdate (applyTagLogic s) = true
        /\ newTags (applyTagLogic s) = s ++ ", chargeback_risk")
  /\ (~ Js.Substring "chargeback_risk" s -> ~ Js.Substring "chargeback_flag1" s ->
        let first := applyTagLogic s in
        let second := applyTagLogic (newTags first) in
        let third := applyTagLogic (newTags second) in
        shouldUpdate first = true
        /\ shouldUpdate second = true
        /\ newTags second = newTags first ++ ", chargeback_risk"
        /\ shouldUpdate third = false
        /\ newTags third = newTags second).
Proof.
  split; [|split; [|split]].
  - intros R. apply applyTagLogic_risk, includes_spec, R.
  - intros R F. apply includes_false in R. apply includes_false in F.
    destruct (applyTagLogic_untagged s R F) as [U E]. split; [exact U|].
    rewrite E. unfold flagged. destruct s; reflexivity.
  - intros R F. apply includes_false in R. apply includes_spec in F.
    exact (applyTagLogic_flagged s R F).
  - intros R F. apply includes_false in R. apply includes_false in F.
    destruct (applyTagLogic_untagged s R F) as [U1 E1].
    destruct (applyTagLogic_flagged _ (flagged_no_risk s R) (flagged_has_flag s))
      as [U2 E2].
    assert (K : Js.includes (flagged s ++ ", chargeback_risk") "chargeback_risk" = true)
      by (apply includes_app_suffix; reflexivity).
    destruct (applyTagLogic_risk _ K) as [U3 E3].
    cbv zeta. rewrite E1, E2. auto.
Qed.

(** The ladder from the tag string [vip], and the example of the empty one. *)
Lemma applyTagLogic_ladder_witness :
  newTags (applyTagLogic "vip") = "vip, chargeback_flag1"
  /\ newTags (applyTagLogic "vip, chargeback_flag1")
     = "vip, chargeback_flag1, chargeback_risk"
  /\ shouldUpdate (applyTagLogic "vip, chargeback_flag1, chargeback_risk") = false
  /\ newTags (applyTagLogic "") = "chargeback_flag1".
Proof.
  assert (R : ~ Js.Substring "chargeback_risk" "vip")
    by (apply includes_false; reflexivity).
  assert (F : ~ Js.Substring "chargeback_flag1" "vip")
    by (apply includes_false; reflexivity).
  assert (R0 : ~ Js.Substring "chargeback_risk" "")
    by (apply includes_false; reflexivity).
  assert (F0 : ~ Js.Substring "chargeback_flag1" "")
    by (apply includes_false; reflexivity).
  destruct (applyTagLogic_ladder "vip") as (_ & A & _ & L).
  destruct (applyTagLogic_ladder "") as (_ & A0 & _ & _).
  destruct (A R F) as [_ E1]. destruct (L R F) as (_ & _ & E2 & U3 & _).
  destruct (A0 R0 F0) as [_ E0]. cbv zeta in *.
  split; [exact E1|]. split; [exact E2|]. split; [exact U3 | exact E0].
Defined.

(** ** Signature verification *)

Lemma Buffer_equal_spec (a b : list Z) : Buffer.equal a b = true <-> a = b.
Proof.
  revert b; induction a as [|x a IH]; intros [|y b]; simpl;
    try (split; [discriminate | congruence]); [tauto|].
  rewrite andb_true_iff, Z.eqb_eq, IH. split; [intros []|intros [=]]; subst; auto.
Qed.

Lemma timingSafeEqual_true (a b : list Z) :
  timingSafeEqual a b = Ok true <-> a = b.
Proof.
  unfold timingSafeEqual. destruct (Nat.eqb_spec (length a) (length b)) as [E|E].
  - rewrite <- Buffer_equal_spec. split; congruence.
  - split; [discriminate | intros ->; contradiction].
Qed.

Lemma timingSafeEqual_length (a b : list Z) :
  length a <> length b ->
  timingSafeEqual a b
  = Throw (RangeError "Input buffers must have the same byte length").
Proof.
  intros H. unfold timingSafeEqual.
  destruct (Nat.eqb_spec (length a) (length b)); [contradiction | reflexivity].
Qed.

Lemma sextets_padding (x y : string) :
  Buffer.sextets (x ++ String "="%char y) = Buffer.sextets x.
Proof.
  induction x as [|c x IH]; simpl; [reflexivity|].
  destruct (Ascii.eqb c "="); [reflexivity|].
  destruct (Buffer.value c); congruence.
Qed.

(** Text after the first padding character does not reach the buffer. *)
Lemma from_base64_padding (x y : string) :
  Buffer.from_base64 (x ++ String "="%char y) = Buffer.from_base64 x.
Proof. unfold Buffer.from_base64. now rewrite sextets_padding. Qed.

Lemma or_else_truthy (s d : string) :
  Js.truthy s = true -> Js.or_else (Some s) d = s.
Proof. intros H. unfold Js.or_else. now rewrite H. Qed.

Lemma falsy_truthy (s : string) :
  Js.truthy s = true -> Js.falsy (Some s) = false.
Proof. intros H. unfold Js.falsy. now rewrite H. Qed.

(** In the handler the body passed along is the text already read, so the
    digest is taken over the raw body. *)
Lemma requestBody_is_text (request : HttpRequest) :
  Js.or_else (Some (text request)) (text request) = text request.
Proof. unfold Js.or_else. now destruct (Js.truthy (text request)). Qed.

Lemma validateShopifyWebhook_returns rt env request body :
  exists isValid, validateShopifyWebhook rt env request body = Ok isValid.
Proof.
  unfold validateShopifyWebhook.
  destruct (validateShopifyWebhook_try rt env request body); eauto.
Qed.

Lemma validateShopifyWebhook_present rt env request body secret hmacHeader :
  SHOPIFY_WEBHOOK_SECRET env = Some secret -> Js.truthy secret = true ->
  headers_get request "X-Shopify-Hmac-Sha256" = Some hmacHeader ->
  Js.truthy hmacHeader = true ->
  validateShopifyWebhook_try rt env request body
  = timingSafeEqual
      (Buffer.from_base64 hmacHeader)
      (Buffer.from_base64 (hmacSha256Base64 rt secret (Js.or_else body (text request)))).
Proof.
  intros Hs Ts Hh Th. unfold validateShopifyWebhook_try.
  rewrite Hs, Hh, !falsy_truthy, !or_else_truthy by assumption. reflexivity.
Qed.

(** Any header that spells the digest without its padding is accepted. *)
Lemma validateShopifyWebhook_unpadded rt env request body secret x y :
  SHOPIFY_WEBHOOK_SECRET env = Some secret -> Js.truthy secret = true ->
  headers_get request "X-Shopify-Hmac-Sha256" = Some x -> Js.truthy x = true ->
  hmacSha256Base64 rt secret (Js.or_else body (text request)) = x ++ String "="%char y ->
  validateShopifyWebhook rt env request body = Ok true.
Proof.
  intros Hs Ts Hh Th E. unfold validateShopifyWebhook.
  rewrite (validateShopifyWebhook_present _ _ _ _ _ _ Hs Ts Hh Th), E, from_base64_padding.
  now rewrite (proj2 (timingSafeEqual_true _ _) eq_refl).
Qed.

(** C3, as amended.  Without a configured secret the check answers [false];
    with a secret and no signature header it answers [true] whatever the
    body; with both, it answers [true] exactly when the header and the
    expected digest decode to the same bytes, which holds in particular when
    the two texts are equal. *)
Theorem validateShopifyWebhook_decides rt env request body :
  (Js.falsy (SHOPIFY_WEBHOOK_SECRET env) = true ->
     validateShopifyWebhook rt env request body = Ok false)
  /\ (Js.falsy (SHOPIFY_WEBHOOK_SECRET env) = false ->
      Js.falsy (headers_get request "X-Shopify-Hmac-Sha256") = true ->
      validateShopifyWebhook rt env request body = Ok true)
  /\ (forall secret hmacHeader,
        SHOPIFY_WEBHOOK_SECRET env = Some secret -> Js.truthy secret = true ->
        headers_get request "X-Shopify-Hmac-Sha256" = Some hmacHeader ->
        Js.truthy hmacHeader = true ->
        let expectedHmac :=
          hmacSha256Base64 rt secret (Js.or_else body (text request)) in
        (validateShopifyWebhook rt env request body = Ok true
         <-> Buffer.from_base64 hmacHeader = Buffer.from_base64 expectedHmac)
        /\ (hmacHeader = expectedHmac ->
            validateShopifyWebhook rt env request body = Ok true)).
Proof.
  split; [|split].
  - intros H. unfold validateShopifyWebhook, validateShopifyWebhook_try.
    now rewrite H.
  - intros Hs Hh. unfold validateShopifyWebhook, validateShopifyWebhook_try.
    now rewrite Hs, Hh.
  - intros secret hmacHeader Hs Ts Hh Th expectedHmac.
    assert (I : validateShopifyWebhook rt env request body = Ok true
                <-> Buffer.from_base64 hmacHeader = Buffer.from_base64 expectedHmac).
    { unfold validateShopifyWebhook.
      rewrite (validateShopifyWebhook_present _ _ _ _ _ _ Hs Ts Hh Th).
      fold expectedHmac. rewrite <- timingSafeEqual_true.
      destruct (timingSafeEqual _ _) as [[]|]; split; congruence. }
    split; [exact I|]. intros ->. now apply I.
Qed.

(** The three cases at the sample secret ["s"] and body ["b"]. *)
Lemma validateShopifyWebhook_decides_witness :
  validateShopifyWebhook Sample.runtime {| SHOPIFY_WEBHOOK_SECRET := None; SHOPIFY_SHOP_DOMAIN := None |}
    (Sample.signed Sample.digest_s_b "b") (Some "b") = Ok false
  /\ validateShopifyWebhook Sample.runtime Sample.env
       (Sample.request "disputes/create" "b") (Some "b") = Ok true
  /\ validateShopifyWebhook Sample.runtime Sample.env
       (Sample.signed Sample.digest_s_b "b") (Some "b") = Ok true.
Proof.
  split; [|split].
  - apply (proj1 (validateShopifyWebhook_decides _ _ _ _)). reflexivity.
  - apply (proj1 (proj2 (validateShopifyWebhook_decides _ _ _ _))); reflexivity.
  - apply (proj2 (proj2 (validateShopifyWebhook_decides Sample.runtime Sample.env
             (Sample.signed Sample.digest_s_b "b") (Some "b")))
             "s" Sample.digest_s_b); reflexivity.
Defined.

(** C3, as stated, fails: the digest of ["b"] under ["s"] written without its
    trailing [=] is a different text, and it is accepted. *)
Lemma validateShopifyWebhook_not_textual :
  headers_get (Sample.signed Sample.digest_s_b_unpadded "b") "X-Shopify-Hmac-Sha256"
  = Some Sample.digest_s_b_unpadded
  /\ Sample.digest_s_b_unpadded <> hmacSha256Base64 Sample.runtime "s" "b"
  /\ validateShopifyWebhook Sample.runtime Sample.env
       (Sample.signed Sample.digest_s_b_unpadded "b") (Some "b") = Ok true.
Proof.
  split; [reflexivity|]. split; [discriminate|]. vm_compute. reflexivity.
Qed.

(** C10. The check always answers with a boolean; when the header decodes to
    a number of bytes other than the 32 of the digest, the comparison throws
    and the answer is [false]. *)
Theorem validateShopifyWebhook_total rt env request body :
  (exists isValid, validateShopifyWebhook rt env request body = Ok isValid)
  /\ (forall secret hmacHeader,
        SHOPIFY_WEBHOOK_SECRET env = Some secret -> Js.truthy secret = true ->
        headers_get request "X-Shopify-Hmac-Sha256" = Some hmacHeader ->
        Js.truthy hmacHeader = true ->
        length (Buffer.from_base64
                  (hmacSha256Base64 rt secret (Js.or_else body (text request)))) = 32%nat ->
        length (Buffer.from_base64 hmacHeader) <> 32%nat ->
        validateShopifyWebhook_try rt env request body
        = Throw (RangeError "Input buffers must have the same byte length")
        /\ validateShopifyWebhook rt env request body = Ok false).
Proof.
  split; [apply validateShopifyWebhook_returns|].
  intros secret hmacHeader Hs Ts Hh Th L32 Lh.
  assert (T : validateShopifyWebhook_try rt env request body
              = Throw (RangeError "Input buffers must have the same byte length")).
  { rewrite (validateShopifyWebhook_present _ _ _ _ _ _ Hs Ts Hh Th).
    apply timingSafeEqual_length. congruence. }
  split; [exact T|]. unfold validateShopifyWebhook. now rewrite T.
Qed.

(** A one-byte signature against the 32-byte sample digest. *)
Lemma validateShopifyWebhook_total_witness :
  validateShopifyWebhook_try Sample.runtime Sample.env (Sample.signed "QQ==" "b") (Some "b")
  = Throw (RangeError "Input buffers must have the same byte length")
  /\ validateShopifyWebhook Sample.runtime Sample.env (Sample.signed "QQ==" "b") (Some "b")
     = Ok false.
Proof.
  apply (proj2 (validateShopifyWebhook_total Sample.runtime Sample.env
                  (Sample.signed "QQ==" "b") (Some "b")) "s" "QQ==");
    try reflexivity.
  vm_compute. discriminate.
Defined.

(** ** Running the pipeline *)

Ltac run :=
  cbv beta iota zeta
      delta [bind ret throw try_catch emit get_dbAvailable set_dbAvailable lift
             when testConnection insertWebhookRecord insertErrorRecord
             databaseClose getOrder updateCustomerTags sendWebhookNotification
             persistError close dbAvailable trace app negb initial].

Section Pipeline.

Variable rt : Runtime.
Variable w : World.
Variable dispute : ShopifyDispute.
Variable request : option HttpRequest.

Lemma processChargeback_not_found :
  shop_order w (d_order_id dispute) = None ->
  processChargeback rt w dispute request initial
  = (Ok {| success := false; statusCode := Some 404%Z;
           message := Some (orderNotFound dispute) |},
     {| dbAvailable := db_connects w;
        trace := TestConnection :: GetOrder (d_order_id dispute)
                 :: if db_connects w
                    then [InsertErrorRecord (orderNotFoundRecord dispute request)]
                    else [] |}).
Proof.
  intros H. unfold processChargeback, processChargeback_try. run. rewrite H.
  destruct (db_connects w); reflexivity.
Qed.

Lemma processChargeback_processed order currentTags :
  shop_order w (d_order_id dispute) = Some order ->
  customerTagsOf order = JsString currentTags ->
  processChargeback rt w dispute request initial
  = (Ok {| success := true; statusCode := Some 200%Z;
           message := Some "Chargeback processed successfully" |},
     {| dbAvailable := db_connects w;
        trace :=
          (TestConnection :: GetOrder (d_order_id dispute)
           :: tagUpdateTrace w order currentTags
           ++ (if db_connects w
               then [InsertWebhookRecord
                       (webhookRecord rt w dispute (customerNameOf order)
                          (Js.or_else (customerEmailOf order) "email@not.identified.com")
                          (applyTagLogic currentTags) currentTags
                          (finalTagsOf w order currentTags))]
               else [])
           ++ [successNotification dispute order currentTags])%list |}).
Proof.
  intros H T. unfold processChargeback, processChargeback_try. run.
  rewrite H, T. unfold tagUpdateTrace, finalTagsOf, successNotification.
  destruct (shouldUpdate (applyTagLogic currentTags)).
  - destruct (o_customer order) as [customer|].
    + destruct (shop_puts w _ _), (db_connects w); reflexivity.
    + destruct (db_connects w); reflexivity.
  - destruct (db_connects w); reflexivity.
Qed.

Lemma processChargeback_threw order :
  shop_order w (d_order_id dispute) = Some order ->
  (forall s, customerTagsOf order <> JsString s) ->
  processChargeback rt w dispute request initial
  = (Ok {| success := false; statusCode := Some 500%Z;
           message := Some "Internal server error" |},
     {| dbAvailable := db_connects w;
        trace :=
          (TestConnection :: GetOrder (d_order_id dispute)
           :: (if db_connects w
               then [GetOrder (d_order_id dispute);
                     InsertErrorRecord
                       (processingErrorRecord rt dispute request includesNotAFunction
                          (Js.or_else (customerEmailOf order) "email@not.identified.com"))]
               else [])
           ++ [failureNotification dispute])%list |}).
Proof.
  intros H T. unfold processChargeback, processChargeback_try, processChargeback_catch.
  run. rewrite H.
  destruct (customerTagsOf order) as [| |b|z|s] eqn:E.
  5: exfalso; exact (T s eq_refl).
  all: destruct (db_connects w); reflexivity.
Qed.

End Pipeline.

(** ** Running the handler *)

Section HandlerPaths.

Variable rt : Runtime.
Variable env : ProcessEnv.
Variable w : World.
Variable request : HttpRequest.

Lemma passesGates_inv :
  passesGates rt env request = true ->
  validateShopifyWebhook rt env request (Some (text request)) = Ok true
  /\ validateChargebackWebhook request = true
  /\ validateShopDomain env request = true.
Proof.
  unfold passesGates.
  destruct (validateShopifyWebhook rt env request (Some (text request))) as [[]|];
    try discriminate.
  intros H. apply andb_true_iff in H. tauto.
Qed.

Lemma handle_invalid_signature :
  validateShopifyWebhook rt env request (Some (text request)) = Ok false ->
  handle rt env w request
  = (Ok {| status := 401; body := Some "Unauthorized" |},
     (persistErrorTrace w (invalidSignatureRecord request)
      ++ [signatureNotification])%list).
Proof.
  intros V. unfold handle, handler, handler_try, persistErrorTrace. run.
  rewrite V. destruct (db_connects w); reflexivity.
Qed.

Lemma handle_unsupported_topic :
  validateShopifyWebhook rt env request (Some (text request)) = Ok true ->
  validateChargebackWebhook request = false ->
  handle rt env w request
  = (Ok {| status := 400; body := Some "Unsupported webhook type" |},
     persistErrorTrace w (unsupportedTopicRecord request)).
Proof.
  intros V T. unfold handle, handler, handler_try, persistErrorTrace. run.
  rewrite V, T. destruct (db_connects w); reflexivity.
Qed.

Lemma handle_invalid_domain :
  validateShopifyWebhook rt env request (Some (text request)) = Ok true ->
  validateChargebackWebhook request = true ->
  validateShopDomain env request = false ->
  handle rt env w request
  = (Ok {| status := 403; body := Some "Forbidden" |},
     persistErrorTrace w (invalidDomainRecord request)).
Proof.
  intros V T D. unfold handle, handler, handler_try, persistErrorTrace. run.
  rewrite V, T, D. destruct (db_connects w); reflexivity.
Qed.

Lemma handle_invalid_json parseMessage :
  passesGates rt env request = true ->
  JSON_parse rt (text request) = SyntaxError parseMessage ->
  handle rt env w request
  = (Ok {| status := 400; body := Some "Invalid JSON" |},
     (persistErrorTrace w (jsonParseRecord rt request parseMessage)
      ++ [parseNotification parseMessage])%list).
Proof.
  intros G P. destruct (passesGates_inv G) as (V & T & D).
  unfold handle, handler, handler_try, persistErrorTrace. run.
  rewrite V, T, D, P. destruct (db_connects w); reflexivity.
Qed.

Lemma handle_null_body :
  passesGates rt env request = true ->
  JSON_parse rt (text request) = ParsedNull ->
  handle rt env w request
  = (Ok {| status := 500; body := Some "Internal server error" |},
     (persistErrorTrace w (generalErrorRecord request nullDispute)
      ++ [generalNotification nullDispute])%list).
Proof.
  intros G P. destruct (passesGates_inv G) as (V & T & D).
  unfold handle, handler, handler_try, handler_catch, persistErrorTrace. run.
  rewrite V, T, D, P. destruct (db_connects w); reflexivity.
Qed.

Lemma handle_unsupported_type dispute :
  passesGates rt env request = true ->
  JSON_parse rt (text request) = ParsedDispute dispute ->
  String.eqb (d_type dispute) "chargeback" = false ->
  handle rt env w request
  = (Ok {| status := 400; body := Some "Unsupported dispute type" |},
     (persistErrorTrace w (unsupportedTypeRecord rt request dispute)
      ++ [typeNotification dispute])%list).
Proof.
  intros G P Ty. destruct (passesGates_inv G) as (V & T & D).
  unfold handle, handler, handler_try, persistErrorTrace. run.
  rewrite V, T, D, P, Ty. destruct (db_connects w); reflexivity.
Qed.

Section Chargeback.

Variable dispute : ShopifyDispute.
Hypothesis gates : passesGates rt env request = true.
Hypothesis parsed : JSON_parse rt (text request) = ParsedDispute dispute.
Hypothesis chargeback : String.eqb (d_type dispute) "chargeback" = true.

Lemma handle_chargeback result m :
  processChargeback rt w dispute (Some request) initial = (Ok result, m) ->
  handle rt env w request
  = if success result then
      (Ok {| status := 200; body := Some "Webhook processed successfully" |}, trace m)
    else if match statusCode result with
            | Some code => (code =? 404)%Z
            | None => false
            end then
      (Ok {| status := 404; body := message result |}, trace m)
    else
      (Ok {| status := number_or (statusCode result) 500;
             body := Some (Js.or_else (message result) "Internal server error") |},
       (trace m
        ++ persistErrorTrace w (processingFailureRecord request dispute result)
        ++ [failureNotification dispute])%list).
Proof.
  intros R. destruct (passesGates_inv gates) as (V & T & D).
  unfold handle, handler, handler_try, persistErrorTrace, failureNotification.
  cbv beta iota zeta delta [bind ret try_catch lift negb].
  rewrite V, T, D, parsed, chargeback. cbv beta iota. rewrite R.
  destruct (success result); [reflexivity|].
  destruct (match statusCode result with Some code => (code =? 404)%Z | None => false end);
    [reflexivity|].
  cbv beta iota zeta
      delta [bind ret try_catch emit when testConnection insertErrorRecord
             sendWebhookNotification persistError].
  destruct (db_connects w); cbn [trace dbAvailable];
    rewrite <- !app_assoc; reflexivity.
Qed.

Lemma handle_order_not_found :
  shop_order w (d_order_id dispute) = None ->
  handle rt env w request
  = (Ok {| status := 404; body := Some (orderNotFound dispute) |},
     TestConnection :: GetOrder (d_order_id dispute)
     :: if db_connects w
        then [InsertErrorRecord (orderNotFoundRecord dispute (Some request))]
        else []).
Proof.
  intros H.
  rewrite (handle_chargeback _ _ (processChargeback_not_found rt w dispute _ H)).
  reflexivity.
Qed.

Lemma handle_processed order currentTags :
  shop_order w (d_order_id dispute) = Some order ->
  customerTagsOf order = JsString currentTags ->
  handle rt env w request
  = (Ok {| status := 200; body := Some "Webhook processed successfully" |},
     (TestConnection :: GetOrder (d_order_id dispute)
      :: tagUpdateTrace w order currentTags
      ++ (if db_connects w
          then [InsertWebhookRecord
                  (webhookRecord rt w dispute (customerNameOf order)
                     (Js.or_else (customerEmailOf order) "email@not.identified.com")
                     (applyTagLogic currentTags) currentTags
                     (finalTagsOf w order currentTags))]
          else [])
      ++ [successNotification dispute order currentTags])%list).
Proof.
  intros H T.
  rewrite (handle_chargeback _ _ (processChargeback_processed rt w dispute _ _ _ H T)).
  reflexivity.
Qed.

Lemma handle_pipeline_threw order :
  shop_order w (d_order_id dispute) = Some order ->
  (forall s, customerTagsOf order <> JsString s) ->
  handle rt env w request
  = (Ok {| status := 500; body := Some "Internal server error" |},
     (TestConnection :: GetOrder (d_order_id dispute)
      :: (if db_connects w
          then [GetOrder (d_order_id dispute);
                InsertErrorRecord
                  (processingErrorRecord rt dispute (Some request) includesNotAFunction
                     (Js.or_else (customerEmailOf order) "email@not.identified.com"))]
          else [])
      ++ [failureNotification dispute]
      ++ persistErrorTrace w
           (processingFailureRecord request dispute
              {| success := false; statusCode := Some 500%Z;
                 message := Some "Internal server error" |})
      ++ [failureNotification dispute])%list).
Proof.
  intros H T.
  rewrite (handle_chargeback _ _ (processChargeback_threw rt w dispute _ _ H T)).
  cbn [success statusCode message trace Z.eqb Pos.eqb number_or Js.or_else Js.truthy].
  cbn [app]. rewrite <- app_assoc. reflexivity.
Qed.

End Chargeback.

End HandlerPaths.

(** ** The order-not-found path *)

Lemma eqb_chargeback (dispute : ShopifyDispute) :
  d_type dispute = "chargeback" ->
  String.eqb (d_type dispute) "chargeback" = true.
Proof. intros ->. reflexivity. Qed.

(** C4. When the order lookup finds nothing, the pipeline answers with a
    failure of status 404 and the handler with a response of status 404; the
    only row written is one [OrderNotFound] error row of code 404, written
    when the database is reachable, and no notification is sent by either. *)
Theorem order_not_found_is_silent rt env w request dispute :
  passesGates rt env request = true ->
  JSON_parse rt (text request) = ParsedDispute dispute ->
  d_type dispute = "chargeback" ->
  shop_order w (d_order_id dispute) = None ->
  let (result, m) := processChargeback rt w dispute (Some request) initial in
  let (response, tr) := handle rt env w request in
  result = Ok {| success := false; statusCode := Some 404%Z;
                 message := Some (orderNotFound dispute) |}
  /\ notifications (trace m) = []
  /\ response = Ok {| status := 404; body := Some (orderNotFound dispute) |}
  /\ notifications tr = []
  /\ webhookRecords tr = []
  /\ errorRecords tr
     = (if db_connects w then [orderNotFoundRecord dispute (Some request)] else [])
  /\ http_code (orderNotFoundRecord dispute (Some request)) = 404%Z
  /\ error_type (orderNotFoundRecord dispute (Some request)) = "OrderNotFound".
Proof.
  intros G P Ty H.
  rewrite (processChargeback_not_found rt w dispute _ H).
  rewrite (handle_order_not_found rt env w request dispute G P (eqb_chargeback _ Ty) H).
  cbn [trace]. destruct (db_connects w); repeat split; reflexivity.
Qed.

(** The sample chargeback against a shop that does not know the order. *)
Lemma order_not_found_is_silent_witness :
  fst (handle Sample.runtime Sample.env (Sample.world None true) Sample.chargebackRequest)
  = Ok {| status := 404; body := Some "Order 4501 not found" |}
  /\ notifications
       (snd (handle Sample.runtime Sample.env (Sample.world None true)
               Sample.chargebackRequest)) = [].
Proof.
  assert (G : passesGates Sample.runtime Sample.env Sample.chargebackRequest = true)
    by (vm_compute; reflexivity).
  assert (P : JSON_parse Sample.runtime (text Sample.chargebackRequest)
              = ParsedDispute Sample.chargeback)
    by (vm_compute; reflexivity).
  pose proof (order_not_found_is_silent Sample.runtime Sample.env
                (Sample.world None true) Sample.chargebackRequest
                Sample.chargeback G P eq_refl eq_refl) as H.
  destruct (processChargeback _ _ _ _ _) as [result m].
  destruct (handle _ _ _ _) as [response tr].
  destruct H as (_ & _ & R & N & _). split; [exact R | exact N].
Defined.

(** ** Disputes of another type *)

(** Every run of the pipeline looks the order up, from any state. *)
Lemma processChargeback_looks_up rt w dispute request m :
  In (GetOrder (d_order_id dispute))
     (trace (snd (processChargeback rt w dispute request m))).
Proof.
  unfold processChargeback, processChargeback_try, processChargeback_catch.
  destruct m as [available tr].
  repeat (cbv beta iota zeta
              delta [bind ret throw try_catch emit get_dbAvailable set_dbAvailable
                     when testConnection insertWebhookRecord insertErrorRecord
                     getOrder updateCustomerTags sendWebhookNotification negb
                     dbAvailable trace snd];
          try match goal with
              | |- context [match ?x with _ => _ end] =>
                  lazymatch x with
                  | context [match _ with _ => _ end] => fail
                  | _ => destruct x eqn:?
                  end
              end).
  all: rewrite !in_app_iff; cbn [In]; intuition.
Qed.

(** C5. A dispute whose type is not [chargeback] is answered with status
    400 and recorded as [UnsupportedDisputeType]; the trace of the event is
    one [persistError] and one notification, so it holds no call to the
    commerce platform, whereas every run of the pipeline starts by looking
    the order up: the pipeline was not entered. *)
Theorem other_types_never_reach_commerce rt env w request dispute :
  passesGates rt env request = true ->
  JSON_parse rt (text request) = ParsedDispute dispute ->
  d_type dispute <> "chargeback" ->
  let (response, tr) := handle rt env w request in
  response = Ok {| status := 400; body := Some "Unsupported dispute type" |}
  /\ tr = (persistErrorTrace w (unsupportedTypeRecord rt request dispute)
           ++ [typeNotification dispute])%list
  /\ http_code (unsupportedTypeRecord rt request dispute) = 400%Z
  /\ error_type (unsupportedTypeRecord rt request dispute) = "UnsupportedDisputeType"
  /\ commerceCalls tr = []
  /\ ~ In (GetOrder (d_order_id dispute)) tr
  /\ (forall request' m,
        In (GetOrder (d_order_id dispute))
           (trace (snd (processChargeback rt w dispute request' m)))).
Proof.
  intros G P Ty. apply String.eqb_neq in Ty.
  rewrite (handle_unsupported_type rt env w request dispute G P Ty).
  unfold persistErrorTrace, typeNotification.
  repeat split; try (destruct (db_connects w); reflexivity).
  - destruct (db_connects w); cbn [In app]; intuition discriminate.
  - intros. apply processChargeback_looks_up.
Qed.

(** The sample inquiry. *)
Lemma other_types_never_reach_commerce_witness :
  fst (handle Sample.runtime Sample.env (Sample.world None true) Sample.inquiryRequest)
  = Ok {| status := 400; body := Some "Unsupported dispute type" |}
  /\ commerceCalls
       (snd (handle Sample.runtime Sample.env (Sample.world None true)
               Sample.inquiryRequest)) = [].
Proof.
  assert (G : passesGates Sample.runtime Sample.env Sample.inquiryRequest = true)
    by (vm_compute; reflexivity).
  assert (P : JSON_parse Sample.runtime (text Sample.inquiryRequest)
              = ParsedDispute Sample.inquiry)
    by (vm_compute; reflexivity).
  pose proof (other_types_never_reach_commerce Sample.runtime Sample.env
                (Sample.world None true) Sample.inquiryRequest Sample.inquiry
                G P ltac:(discriminate)) as H.
  destruct (handle _ _ _ _) as [response tr].
  destruct H as (R & _ & _ & _ & C & _). split; [exact R | exact C].
Defined.

(** ** The tag update and the persisted row *)






(** ** An order without a customer *)

Lemma customerTagsOf_no_customer (order : ShopifyOrder) :
  o_customer order = None -> customerTagsOf order = JsString "".
Proof. intros H. unfold customerTagsOf. now rewrite H. Qed.

(** C9. For an order that carries no customer the pipeline requests no tag
    update, writes (database reachable) one row with the placeholder name
    and e-mail, empty tags before and after and the action text of the first
    flag, sends the one success notification, and answers success, 200. *)
Theorem order_without_customer rt w dispute request order :
  shop_order w (d_order_id dispute) = Some order ->
  o_customer order = None ->
  let record :=
    webhookRecord rt w dispute "Customer not identified" "email@not.identified.com"
      (applyTagLogic "") "" "" in
  let (result, m) := processChargeback rt w dispute request initial in
  result = Ok {| success := true; statusCode := Some 200%Z;
                 message := Some "Chargeback processed successfully" |}
  /\ filter is_tag_update (trace m) = []
  /\ webhookRecords (trace m) = (if db_connects w then [record] else [])
  /\ errorRecords (trace m) = []
  /\ notifications (trace m)
     = [SendWebhookNotification (Some dispute) (Some "Added tag: chargeback_flag1")
          (Some "Customer not identified") (Some "email@not.identified.com")
          (Some (orderNameOf order dispute))]
  /\ customer_name record = "Customer not identified"
  /\ customer_email record = "email@not.identified.com"
  /\ customer_tags_before record = ""
  /\ customer_tags_after record = ""
  /\ wr_action record = "Added tag: chargeback_flag1".
Proof.
  intros O C record.
  rewrite (processChargeback_processed rt w dispute request order ""
             O (customerTagsOf_no_customer order C)).
  unfold tagUpdateTrace, finalTagsOf, successNotification, customerNameOf, customerEmailOf.
  rewrite C. cbn [trace app applyTagLogic shouldUpdate Js.or_else].
  destruct (db_connects w); repeat split; reflexivity.
Qed.

(** The sample order with no customer attached. *)
Lemma order_without_customer_witness :
  webhookRecords
    (trace (snd (processChargeback Sample.runtime
                   (Sample.world (Some (Sample.order None)) true)
                   Sample.chargeback None initial)))
  = [webhookRecord Sample.runtime (Sample.world (Some (Sample.order None)) true)
       Sample.chargeback "Customer not identified" "email@not.identified.com"
       (applyTagLogic "") "" ""].
Proof.
  pose proof (order_without_customer Sample.runtime
                (Sample.world (Some (Sample.order None)) true)
                Sample.chargeback None (Sample.order None) eq_refl eq_refl) as H.
  cbv zeta in H. destruct (processChargeback _ _ _ _ _) as [result m].
  destruct H as (_ & _ & R & _). exact R.
Defined.

(** ** Every path of the handler *)

Lemma customerTags_cases (order : ShopifyOrder) :
  (exists s, customerTagsOf order = JsString s)
  \/ (forall s, customerTagsOf order <> JsString s).
Proof.
  destruct (customerTagsOf order); try (right; discriminate). left; eauto.
Qed.

Lemma passesGates_intro rt env request :
  validateShopifyWebhook rt env request (Some (text request)) = Ok true ->
  validateChargebackWebhook request = true ->
  validateShopDomain env request = true ->
  passesGates rt env request = true.
Proof. intros V T D. unfold passesGates. now rewrite V, T, D. Qed.

Lemma pathOf_threw rt env w request dispute order :
  passesGates rt env request = true ->
  JSON_parse rt (text request) = ParsedDispute dispute ->
  String.eqb (d_type dispute) "chargeback" = true ->
  shop_order w (d_order_id dispute) = Some order ->
  (forall s, customerTagsOf order <> JsString s) ->
  pathOf rt env w request = ProcessingError.
Proof.
  intros G P Ty O N. destruct (passesGates_inv rt env request G) as (V & T & D).
  unfold pathOf. rewrite V, T, D, P, Ty, O. cbn [negb].
  destruct (customerTagsOf order) as [| | | |s]; try reflexivity.
  now destruct (N s).
Qed.

(** Split on the path the event takes; in each case both [handle] and
    [pathOf] are rewritten to what the path gives. *)
Ltac by_path rt env w request :=
  let V := fresh "V" in let T := fresh "T" in let D := fresh "D" in
  let G := fresh "G" in let P := fresh "P" in let Ty := fresh "Ty" in
  let O := fresh "O" in let S := fresh "S" in
  let d := fresh "parsed" in let o := fresh "found" in let t := fresh "tags" in
  destruct (validateShopifyWebhook_returns rt env request (Some (text request)))
    as [[|] V];
  [ destruct (validateChargebackWebhook request) eqn:T;
    [ destruct (validateShopDomain env request) eqn:D;
      [ pose proof (passesGates_intro rt env request V T D) as G;
        destruct (JSON_parse rt (text request)) as [? | | d] eqn:P;
        [ rewrite (handle_invalid_json rt env w request _ G P);
          unfold pathOf; rewrite V, T, D, P
        | rewrite (handle_null_body rt env w request G P);
          unfold pathOf; rewrite V, T, D, P
        | destruct (String.eqb (d_type d) "chargeback") eqn:Ty;
          [ destruct (shop_order w (d_order_id d)) as [o|] eqn:O;
            [ destruct (customerTags_cases o) as [[t S] | S];
              [ rewrite (handle_processed rt env w request d G P Ty _ _ O S);
                unfold pathOf; rewrite V, T, D, P, Ty, O, S
              | rewrite (handle_pipeline_threw rt env w request d G P Ty _ O S);
                rewrite (pathOf_threw rt env w request d _ G P Ty O S) ]
            | rewrite (handle_order_not_found rt env w request d G P Ty O);
              unfold pathOf; rewrite V, T, D, P, Ty, O ]
          | rewrite (handle_unsupported_type rt env w request d G P Ty);
            unfold pathOf; rewrite V, T, D, P, Ty ] ]
      | rewrite (handle_invalid_domain rt env w request V T D);
        unfold pathOf; rewrite V, T, D ]
    | rewrite (handle_unsupported_topic rt env w request V T);
      unfold pathOf; rewrite V, T ]
  | rewrite (handle_invalid_signature rt env w request V);
    unfold pathOf; rewrite V ];
  cbn [negb].

Ltac open_trace :=
  unfold Rejected, Accepted, persistErrorTrace, tagUpdateTrace, successNotification,
    failureNotification, signatureNotification, parseNotification,
    typeNotification, generalNotification;
  repeat match goal with
         | |- context [if ?b then _ else _] => destruct b
         | |- context [match o_customer ?o with _ => _ end] => destruct (o_customer o)
         end;
  cbn [app webhookRecords errorRecords notifications filter is_notification
       List.length].

Ltac count_trace := open_trace; repeat split; eauto; try lia.

Lemma customerTagsOf_declared w orderId order :
  Declared w -> shop_order w orderId = Some order ->
  exists s, customerTagsOf order = JsString s.
Proof.
  intros H O. unfold customerTagsOf.
  destruct (o_customer order) as [customer|] eqn:C; [|eauto].
  specialize (H orderId order customer O C).
  destruct (c_tags customer); try discriminate; cbn [JsValue_truthy]; eauto.
  destruct (Js.truthy s); eauto.
Qed.

(** With data of the declared types the pipeline's [catch] is not reached. *)
Lemma declared_types_avoid_catch rt env w request :
  Declared w -> pathOf rt env w request <> ProcessingError.
Proof.
  intros H. unfold pathOf.
  destruct (validateShopifyWebhook rt env request (Some (text request))) as [[|]|];
    try discriminate.
  destruct (validateChargebackWebhook request); try discriminate.
  destruct (validateShopDomain env request); try discriminate.
  destruct (JSON_parse rt (text request)) as [?| |dispute]; try discriminate.
  destruct (String.eqb (d_type dispute) "chargeback"); try discriminate.
  destruct (shop_order w (d_order_id dispute)) as [order|] eqn:O; try discriminate.
  destruct (customerTagsOf_declared w _ order H O) as [s ->]. discriminate.
Qed.

(** With data of the declared types every event writes at most one row and
    sends at most one notification. *)
Lemma declared_types_one_row rt env w request :
  Declared w ->
  let (response, tr) := handle rt env w request in
  (List.length (webhookRecords tr) + List.length (errorRecords tr) <= 1)%nat
  /\ (List.length (notifications tr) <= 1)%nat.
Proof.
  intros H. pose proof (declared_types_avoid_catch rt env w request H) as N.
  revert N. by_path rt env w request; intros N; try (now destruct N); count_trace.
Qed.

(** C1, as amended.  No outcome writes more than one processed row, and none
    writes rows of both kinds; with platform data of the declared types no
    outcome writes more than one row in all.  Path by path: a processed
    event writes one processed row and notifies once; invalid signature,
    malformed JSON, an exception caught by the handler and an unsupported
    dispute type each write one error row and notify once; unsupported
    topic, shop-domain mismatch and order-not-found each write one error row
    and do not notify.  (Rows are written when the database is reachable.)
    For a failure caught inside the pipeline only the status and the absence
    of a processed row are stated. *)
Theorem one_record_per_outcome rt env w request :
  let (response, tr) := handle rt env w request in
  (List.length (webhookRecords tr) <= 1)%nat
  /\ (webhookRecords tr = [] \/ errorRecords tr = [])
  /\ (Declared w ->
      (List.length (webhookRecords tr) + List.length (errorRecords tr) <= 1)%nat)
  /\ match pathOf rt env w request with
     | Processed => Accepted w response tr
     | InvalidSignature => Rejected w response tr 401 1
     | UnsupportedWebhookType => Rejected w response tr 400 0
     | InvalidShopDomain => Rejected w response tr 403 0
     | JSONParseError => Rejected w response tr 400 1
     | GeneralError => Rejected w response tr 500 1
     | UnsupportedDisputeType => Rejected w response tr 400 1
     | OrderNotFound => Rejected w response tr 404 0
     | ProcessingError =>
         (exists b, response = Ok {| status := 500; body := b |})
         /\ webhookRecords tr = []
     end.
Proof.
  generalize (declared_types_one_row rt env w request).
  by_path rt env w request; open_trace; intros Dl;
    repeat split; eauto; try lia; intros H; destruct (Dl H); lia.
Qed.

(** A customer without tags: the event is processed and one row is written. *)
Lemma one_record_per_outcome_witness :
  (List.length
     (webhookRecords
        (snd (handle Sample.runtime Sample.env
                (Sample.world (Some (Sample.order (Some (Sample.customer JsUndefined)))) true)
                Sample.chargebackRequest)))
   + List.length
       (errorRecords
          (snd (handle Sample.runtime Sample.env
                  (Sample.world (Some (Sample.order (Some (Sample.customer JsUndefined)))) true)
                  Sample.chargebackRequest))) <= 1)%nat.
Proof.
  assert (D : Declared (Sample.world (Some (Sample.order (Some (Sample.customer JsUndefined)))) true)).
  { intros orderId order customer O C. cbn in O. injection O as <-.
    cbn in C. injection C as <-. reflexivity. }
  pose proof (one_record_per_outcome Sample.runtime Sample.env
                (Sample.world (Some (Sample.order (Some (Sample.customer JsUndefined)))) true)
                Sample.chargebackRequest) as H.
  destruct (handle _ _ _ _) as [response tr].
  destruct H as (_ & _ & H & _). exact (H D).
Defined.

(** C1, as stated, fails: a webhook of another topic is a failure path, not
    the order-not-found one, and it sends no notification. *)
Lemma unsupported_topic_sends_nothing :
  pathOf Sample.runtime Sample.env (Sample.world None true)
    (Sample.request "orders/create" "{}") = UnsupportedWebhookType
  /\ fst (handle Sample.runtime Sample.env (Sample.world None true)
            (Sample.request "orders/create" "{}"))
     = Ok {| status := 400; body := Some "Unsupported webhook type" |}
  /\ notifications
       (snd (handle Sample.runtime Sample.env (Sample.world None true)
               (Sample.request "orders/create" "{}"))) = [].
Proof. vm_compute. repeat split. Qed.

(** The failure caught inside the pipeline: its [catch] block and the
    handler each write an error row and each send the failure
    notification. *)
Lemma pipeline_failure_reported_twice rt env w request :
  pathOf rt env w request = ProcessingError ->
  let (response, tr) := handle rt env w request in
  List.length (errorRecords tr) = (if db_connects w then 2 else 0)%nat
  /\ List.length (notifications tr) = 2%nat.
Proof.
  by_path rt env w request; try discriminate. intros _. count_trace.
Qed.

Lemma pipeline_failure_reported_twice_sample :
  List.length
    (notifications
       (snd (handle Sample.runtime Sample.env
               (Sample.world (Some (Sample.order (Some (Sample.customer (JsNumber 5))))) true)
               Sample.chargebackRequest))) = 2%nat.
Proof. vm_compute. reflexivity. Qed.

(** ** Order of persistence and notification *)

Lemma existsb_false_In {A} (f : A -> bool) (l : list A) (x : A) :
  existsb f l = false -> In x l -> f x = false.
Proof.
  intros E I. destruct (f x) eqn:F; [|reflexivity].
  assert (existsb f l = true) by (apply existsb_exists; eauto). congruence.
Qed.

Lemma persistThenNotify_sound (tr : list Effect) :
  persistThenNotify tr = true -> PersistBeforeNotify tr.
Proof.
  unfold PersistBeforeNotify. induction tr as [|e tr IH]; intros H pre n post p E N I.
  - destruct pre; discriminate.
  - cbn [persistThenNotify] in H. apply andb_true_iff in H as [H1 H2].
    destruct pre as [|e' pre]; cbn [app] in E; injection E as -> ->.
    + rewrite N in H1. apply negb_true_iff in H1.
      exact (existsb_false_In _ _ _ H1 I).
    + exact (IH H2 pre n post p eq_refl N I).
Qed.



Ltac check_order :=
  unfold persistErrorTrace, tagUpdateTrace, successNotification,
    failureNotification, signatureNotification, parseNotification,
    typeNotification, generalNotification;
  repeat match goal with
         | |- context [if ?b then _ else _] => destruct b
         | |- context [match o_customer ?o with _ => _ end] => destruct (o_customer o)
         end;
  reflexivity.


Lemma handle_persists_first rt env w request :
  pathOf rt env w request <> ProcessingError ->
  persistThenNotify (snd (handle rt env w request)) = true.
Proof.
  by_path rt env w request; cbn [snd]; intros N; try (now destruct N); check_order.
Qed.


(** With data of the declared types, every persistence attempt of the event
    comes before every notification. *)
Lemma declared_types_persist_first rt env w request :
  Declared w -> PersistBeforeNotify (snd (handle rt env w request)).
Proof.
  intros H. apply persistThenNotify_sound, handle_persists_first.
  now apply declared_types_avoid_catch.
Qed.





(** ** Malformed bodies *)

Lemma replace_char_absent (c : ascii) (r s : string) :
  Js.mem_char c s = false -> replace_char c r s = s.
Proof.
  induction s as [|a s IH]; cbn [Js.mem_char replace_char]; [reflexivity|].
  intros H. apply orb_false_elim in H as [H1 H2]. rewrite H1, (IH H2). reflexivity.
Qed.

Lemma strip_control_clean (c : ascii) (s : string) :
  is_control c = true -> Js.mem_char c (strip_control s) = false.
Proof.
  intros C. induction s as [|a s IH]; cbn [strip_control Js.mem_char]; [reflexivity|].
  destruct (is_control a) eqn:A; [exact IH|].
  cbn [Js.mem_char]. rewrite IH, orb_false_r.
  destruct (Ascii.eqb_spec a c); [congruence | reflexivity].
Qed.

(** The three escaping [replace] calls never find anything to escape. *)
Lemma sanitized_is_stripped (data : string) : sanitized data = strip_control data.
Proof.
  unfold sanitized.
  rewrite (replace_char_absent LF), (replace_char_absent CR), (replace_char_absent TAB);
    auto using strip_control_clean.
Qed.

Lemma sanitizeRequestData_valid rt data :
  (forall parseMessage, JSON_parse rt data <> SyntaxError parseMessage) ->
  sanitizeRequestData rt data = data.
Proof.
  intros H. unfold sanitizeRequestData.
  destruct (JSON_parse rt data) as [parseMessage| |dispute] eqn:E; try reflexivity.
  now destruct (H parseMessage).
Qed.

Lemma sanitizeRequestData_invalid rt data parseMessage :
  JSON_parse rt data = SyntaxError parseMessage ->
  sanitizeRequestData rt data = wrapInvalid (strip_control data) (String.length data).
Proof.
  intros H. unfold sanitizeRequestData. now rewrite H, sanitized_is_stripped.
Qed.

(** A malformed body is answered with 400 and recorded with the wrapped
    payload; nothing is thrown. *)
Lemma malformed_body_is_recorded rt env w request parseMessage :
  passesGates rt env request = true ->
  JSON_parse rt (text request) = SyntaxError parseMessage ->
  let (response, tr) := handle rt env w request in
  response = Ok {| status := 400; body := Some "Invalid JSON" |}
  /\ errorRecords tr
     = (if db_connects w then [jsonParseRecord rt request parseMessage] else [])
  /\ request_data (jsonParseRecord rt request parseMessage)
     = Some (wrapInvalid (strip_control (text request)) (String.length (text request))).
Proof.
  intros G P. rewrite (handle_invalid_json rt env w request parseMessage G P).
  unfold persistErrorTrace, parseNotification.
  split; [reflexivity|]. split; [destruct (db_connects w); reflexivity|].
  cbn [request_data jsonParseRecord]. now rewrite (sanitizeRequestData_invalid _ _ _ P).
Qed.

(** C7 on the code.  For the body [not json] followed by a line feed, the
    stored [original_data] is [not json]: the line feed is removed, not
    escaped, because the first [replace] strips every control character
    before the three escaping ones run. *)
Theorem line_feed_is_dropped_not_escaped :
  (forall data, sanitized data = strip_control data)
  /\ sanitizeRequestData Sample.runtime Sample.brokenBody = wrapInvalid "not json" 9
  /\ wrapInvalid "not json" 9
     <> wrapInvalid ("not json" ++ String Json.backslash "n") 9
  /\ handle Sample.runtime Sample.env (Sample.world None true)
       (Sample.request "disputes/create" Sample.brokenBody)
     = (Ok {| status := 400; body := Some "Invalid JSON" |},
        [TestConnection;
         InsertErrorRecord
           {| http_code := 400;
              error_message := "JSON parse error: Unexpected token";
              error_type := "JSONParseError";
              function_name := "ChargebackWebhook.handler";
              er_order_id := None;
              er_dispute_id := None;
              er_customer_email := None;
              stack_trace := None;
              request_data := Some (wrapInvalid "not json" 9);
              environment := "production" |};
         parseNotification "Unexpected token"]).
Proof.
  split; [exact sanitized_is_stripped|].
  split; [vm_compute; reflexivity|].
  split; [vm_compute; discriminate|].
  vm_compute. reflexivity.
Qed.

(** * Properties of the further code *)

(** ** What the handler answers *)

(** The handler always answers, with one of six status codes, and the code
    tells the path: 401 is an invalid signature whatever the topic, domain
    and body; 403 a shop-domain mismatch; 404 an order that was not found;
    200 a processed chargeback; 400 an unsupported topic, a malformed body
    or an unsupported dispute type; 500 a failure caught by the handler or
    by the pipeline. *)
Theorem handler_status_tells_path rt env w request :
  exists response,
    fst (handle rt env w request) = Ok response
    /\ In (status response) [200; 400; 401; 403; 404; 500]%Z
    /\ (status response = 401%Z <-> pathOf rt env w request = InvalidSignature)
    /\ (status response = 403%Z <-> pathOf rt env w request = InvalidShopDomain)
    /\ (status response = 404%Z <-> pathOf rt env w request = OrderNotFound)
    /\ (status response = 200%Z <-> pathOf rt env w request = Processed)
    /\ (status response = 400%Z <->
        pathOf rt env w request = UnsupportedWebhookType
        \/ pathOf rt env w request = JSONParseError
        \/ pathOf rt env w request = UnsupportedDisputeType)
    /\ (status response = 500%Z <->
        pathOf rt env w request = GeneralError
        \/ pathOf rt env w request = ProcessingError).
Proof.
  by_path rt env w request; cbn [fst]; eexists; (split; [reflexivity|]);
    cbn [status In]; intuition (discriminate || tauto).
Qed.

(** The commerce platform is contacted only for a request that passed the
    three gates and whose body parsed to a dispute of type [chargeback]. *)
Theorem commerce_needs_gated_chargeback rt env w request :
  commerceCalls (snd (handle rt env w request)) <> [] ->
  passesGates rt env request = true
  /\ exists dispute,
       JSON_parse rt (text request) = ParsedDispute dispute
       /\ d_type dispute = "chargeback".
Proof.
  generalize (eq_refl (pathOf rt env w request)).
  by_path rt env w request; cbn [snd]; intros _ H;
    try (exfalso; apply H; unfold persistErrorTrace, signatureNotification,
           parseNotification, typeNotification, generalNotification;
         destruct (db_connects w); reflexivity);
    (split; [assumption|]); eexists; (split; [reflexivity|]);
    now apply String.eqb_eq.
Qed.

Lemma commerce_needs_gated_chargeback_witness :
  passesGates Sample.runtime Sample.env Sample.chargebackRequest = true
  /\ exists dispute,
       JSON_parse Sample.runtime (text Sample.chargebackRequest) = ParsedDispute dispute
       /\ d_type dispute = "chargeback".
Proof.
  apply (commerce_needs_gated_chargeback Sample.runtime Sample.env
           (Sample.world None true) Sample.chargebackRequest).
  vm_compute. discriminate.
Defined.

(** No event ever closes the database pool: [close] is only called from the
    handler's [catch], where the service has not yet found the database
    available. *)
Theorem pool_is_never_closed rt env w request :
  existsb is_close (snd (handle rt env w request)) = false.
Proof.
  generalize (eq_refl (pathOf rt env w request)).
  by_path rt env w request; cbn [snd]; intros _; check_order.
Qed.

(** ** Invariants of the rows and calls of an event *)

(** Every error row written during an event carries the status code of the
    response, the environment detected from the request, and the name of
    one of the two functions that write rows. *)
Theorem error_rows_carry_the_status rt env w request :
  exists response,
    fst (handle rt env w request) = Ok response
    /\ Forall (fun row =>
                 http_code row = status response
                 /\ environment row = getEnvironment request
                 /\ (function_name row = "ChargebackWebhook.handler"
                     \/ function_name row = "ChargebackService.processChargeback"))
              (errorRecords (snd (handle rt env w request))).
Proof.
  generalize (eq_refl (pathOf rt env w request)).
  by_path rt env w request; cbn [fst snd]; intros _; eexists;
    (split; [reflexivity|]);
    unfold persistErrorTrace, tagUpdateTrace, successNotification,
      failureNotification, signatureNotification, parseNotification,
      typeNotification, generalNotification;
    repeat match goal with
           | |- context [if ?b then _ else _] => destruct b
           | |- context [match o_customer ?o with _ => _ end] => destruct (o_customer o)
           end;
    cbn [app errorRecords];
    repeat (apply Forall_cons; [split; [reflexivity|]; split; [reflexivity|];
                                first [left; reflexivity | right; reflexivity]|]);
    apply Forall_nil.
Qed.

Lemma applyTagLogic_extends (s : string) :
  exists suffix, newTags (applyTagLogic s) = s ++ suffix.
Proof.
  assert (E : s ++ "" = s) by (induction s; simpl; congruence).
  unfold applyTagLogic.
  destruct (Js.includes s "chargeback_risk"); [exists ""; now rewrite E|].
  destruct (Js.includes s "chargeback_flag1"); cbn [negb newTags];
    (destruct s; [eexists; reflexivity | eexists; reflexivity]).
Qed.

(** Every processed row agrees with the tag rule: its action is the rule's
    action for the tags before; the tags after are the tags before, or (when
    the rule asks for an update) the rule's new tags; and in either case the
    tags after start with the tags before. *)
Theorem processed_rows_follow_the_rule rt env w request :
  Forall (fun row =>
            let tagResult := applyTagLogic (customer_tags_before row) in
            wr_action row = action tagResult
            /\ (customer_tags_after row = customer_tags_before row
                \/ (shouldUpdate tagResult = true
                    /\ customer_tags_after row = newTags tagResult))
            /\ exists suffix,
                 customer_tags_after row = customer_tags_before row ++ suffix)
         (webhookRecords (snd (handle rt env w request))).
Proof.
  generalize (eq_refl (pathOf rt env w request)).
  by_path rt env w request; cbn [snd]; intros _;
    unfold persistErrorTrace, tagUpdateTrace, finalTagsOf, successNotification,
      failureNotification, signatureNotification, parseNotification,
      typeNotification, generalNotification;
    repeat match goal with
           | |- context [if ?b then _ else _] => destruct b eqn:?
           | |- context [match o_customer ?o with _ => _ end] => destruct (o_customer o)
           end;
    cbn [app webhookRecords]; repeat constructor;
    cbn [customer_tags_before customer_tags_after webhookRecord]; auto;
    try (exists ""; clear; induction tags; simpl; congruence);
    apply applyTagLogic_extends.
Qed.

(** A tag update is only ever sent for the customer of the order that was
    looked up, with the tags the rule computed from that customer's
    current tags, and only when the rule asks for an update. *)
Theorem tag_update_comes_from_the_rule rt env w request customerId tags :
  In (UpdateCustomerTags customerId tags) (snd (handle rt env w request)) ->
  exists dispute order customer currentTags,
    JSON_parse rt (text request) = ParsedDispute dispute
    /\ shop_order w (d_order_id dispute) = Some order
    /\ o_customer order = Some customer
    /\ customerTagsOf order = JsString currentTags
    /\ shouldUpdate (applyTagLogic currentTags) = true
    /\ customerId = c_id customer
    /\ tags = newTags (applyTagLogic currentTags).
Proof.
  generalize (eq_refl (pathOf rt env w request)).
  by_path rt env w request; cbn [snd]; intros _;
    unfold persistErrorTrace, tagUpdateTrace, successNotification,
      failureNotification, signatureNotification, parseNotification,
      typeNotification, generalNotification;
    repeat match goal with
           | |- context [if ?b then _ else _] => destruct b eqn:?
           | |- context [match o_customer ?o with _ => _ end] =>
               destruct (o_customer o) eqn:?
           end;
    cbn [app In]; intros H;
    repeat match goal with
           | H : _ \/ _ |- _ => destruct H
           | H : False |- _ => destruct H
           | H : _ = UpdateCustomerTags _ _ |- _ => try discriminate H; injection H as <- <-
           end;
    do 4 eexists; repeat split; eauto.
Qed.

Lemma tag_update_comes_from_the_rule_witness :
  exists dispute order customer currentTags,
    JSON_parse Sample.runtime (text Sample.chargebackRequest) = ParsedDispute dispute
    /\ shop_order (Sample.world (Some (Sample.order (Some (Sample.customer (JsString "vip"))))) true)
         (d_order_id dispute) = Some order
    /\ o_customer order = Some customer
    /\ customerTagsOf order = JsString currentTags
    /\ shouldUpdate (applyTagLogic currentTags) = true
    /\ 77%Z = c_id customer
    /\ "vip, chargeback_flag1" = newTags (applyTagLogic currentTags).
Proof.
  apply (tag_update_comes_from_the_rule Sample.runtime Sample.env
           (Sample.world (Some (Sample.order (Some (Sample.customer (JsString "vip"))))) true)
           Sample.chargebackRequest 77%Z "vip, chargeback_flag1").
  vm_compute. right. right. left. reflexivity.
Defined.

(** ** The pipeline from any state of the service *)

(** Case analysis of one run of [processChargeback] from the state
    [{| dbAvailable := available; trace := tr |}]. *)
Ltac run_pipeline :=
  unfold processChargeback, processChargeback_try, processChargeback_catch;
  repeat (cbv beta iota zeta
              delta [bind ret throw try_catch emit get_dbAvailable set_dbAvailable
                     when testConnection insertWebhookRecord insertErrorRecord
                     getOrder updateCustomerTags sendWebhookNotification negb
                     dbAvailable trace fst snd];
          try match goal with
              | |- context [match ?x with _ => _ end] =>
                  lazymatch x with
                  | context [match _ with _ => _ end] => fail
                  | _ => destruct x eqn:?
                  end
              end).

(** [processChargeback] never rejects, whatever the state it starts from.
    Its result always carries a message and one of the codes 200, 404 and
    500, and reports success exactly with 200: the defaults the handler
    keeps for a missing code or message are never used. *)
Theorem processChargeback_always_resolves rt w dispute request m :
  exists result,
    fst (processChargeback rt w dispute request m) = Ok result
    /\ (statusCode result = Some 200 \/ statusCode result = Some 404
        \/ statusCode result = Some 500)%Z
    /\ (success result = true <-> statusCode result = Some 200%Z)
    /\ (exists code text,
          statusCode result = Some code /\ message result = Some text
          /\ number_or (statusCode result) 500 = code
          /\ Js.or_else (message result) "Failed to process chargeback" = text
          /\ Js.or_else (message result) "Internal server error" = text).
Proof.
  destruct m as [available tr]. run_pipeline.
  all: eexists; (split; [reflexivity|]); cbn [statusCode success message];
    (split; [tauto|]); (split; [split; (discriminate || reflexivity)|]);
    do 2 eexists; repeat split.
Qed.

(** The connection test is cached per service instance only when it
    succeeded: a run adds one test when [dbAvailable] was false and none
    when it was true, leaves [dbAvailable] at the disjunction of its old
    value and the answer of the test, only ever appends to the trace, and
    attempts no insert when it ends with [dbAvailable] false. *)
Theorem connection_test_is_cached rt w dispute request m :
  exists added,
    trace (snd (processChargeback rt w dispute request m))
    = (trace m ++ added)%list
    /\ List.length (filter is_connection_test added)
       = (if dbAvailable m then 0 else 1)%nat
    /\ dbAvailable (snd (processChargeback rt w dispute request m))
       = dbAvailable m || db_connects w
    /\ (dbAvailable (snd (processChargeback rt w dispute request m)) = false ->
        filter is_persistence added = []).
Proof.
  destruct m as [available tr]. run_pipeline.
  all: eexists; (split; [rewrite <- ?app_assoc; cbn [app]; reflexivity|]);
    cbn [filter is_connection_test is_persistence List.length orb];
    repeat split; try reflexivity; try discriminate; auto.
Qed.

(** ** A customer already at risk *)

(** For a customer whose tags already contain [chargeback_risk] the
    pipeline sends no tag update; the row (database reachable) has the same
    tags before and after, the notification carries the rule's "already has"
    action, and the outcome is a success of status 200. *)
Theorem risk_customer_is_left_alone rt w dispute request order currentTags :
  shop_order w (d_order_id dispute) = Some order ->
  customerTagsOf order = JsString currentTags ->
  Js.Substring "chargeback_risk" currentTags ->
  let (result, m) := processChargeback rt w dispute request initial in
  result = Ok {| success := true; statusCode := Some 200%Z;
                 message := Some "Chargeback processed successfully" |}
  /\ filter is_tag_update (trace m) = []
  /\ (db_connects w = true ->
      exists row,
        webhookRecords (trace m) = [row]
        /\ customer_tags_before row = currentTags
        /\ customer_tags_after row = currentTags
        /\ wr_action row
           = "Customer already has chargeback_risk, no need to add chargeback_flag1")
  /\ exists name email orderName,
       notifications (trace m)
       = [SendWebhookNotification (Some dispute)
            (Some "Customer already has chargeback_risk, no need to add chargeback_flag1")
            name email orderName].
Proof.
  intros O T R. apply includes_spec in R.
  rewrite (processChargeback_processed rt w dispute request order currentTags O T).
  unfold tagUpdateTrace, finalTagsOf, successNotification, applyTagLogic.
  rewrite R. cbn [shouldUpdate newTags action trace app].
  split; [reflexivity|]. split; [destruct (db_connects w); reflexivity|].
  split.
  - intros ->. eexists. split; [reflexivity|]. repeat split.
  - do 3 eexists. destruct (db_connects w); reflexivity.
Qed.

Lemma risk_customer_is_left_alone_witness :
  filter is_tag_update
    (trace (snd (processChargeback Sample.runtime
                   (Sample.world
                      (Some (Sample.order
                               (Some (Sample.customer (JsString "vip, chargeback_risk")))))
                      true)
                   Sample.chargeback None initial))) = [].
Proof.
  assert (R : Js.Substring "chargeback_risk" "vip, chargeback_risk")
    by (apply includes_spec; reflexivity).
  pose proof (risk_customer_is_left_alone Sample.runtime
                (Sample.world
                   (Some (Sample.order
                            (Some (Sample.customer (JsString "vip, chargeback_risk")))))
                   true)
                Sample.chargeback None
                (Sample.order (Some (Sample.customer (JsString "vip, chargeback_risk"))))
                "vip, chargeback_risk" eq_refl eq_refl R) as H.
  destruct (processChargeback _ _ _ _ _) as [result m].
  destruct H as (_ & H & _). exact H.
Defined.

(** ** The commerce platform behind the HTTP client *)

(** [getOrder] answers with an order exactly when the request resolved with
    one. *)
Lemma getOrder_result_spec cfg axios orderId order :
  ShopifyService.getOrder_result cfg axios orderId = Some order
  <-> ShopifyService.axios_get axios (ShopifyService.orderUrl cfg orderId)
        (ShopifyService.requestHeaders cfg) = inl (Some order).
Proof.
  unfold ShopifyService.getOrder_result.
  destruct (ShopifyService.axios_get _ _ _) as [[o|]|e]; split; congruence.
Qed.

(** When the order request is rejected, with whatever status or none at all
    (a time-out, a 401, a 500), the event is answered exactly like a missing
    order: response 404 with the order-not-found text, the [OrderNotFound]
    row, and no notification. *)
Theorem failed_lookup_reads_as_not_found
  rt env base cfg axios request dispute error :
  passesGates rt env request = true ->
  JSON_parse rt (text request) = ParsedDispute dispute ->
  d_type dispute = "chargeback" ->
  ShopifyService.axios_get axios
    (ShopifyService.orderUrl cfg (d_order_id dispute))
    (ShopifyService.requestHeaders cfg) = inr error ->
  handle rt env (ShopifyService.worldOf cfg axios base) request
  = (Ok {| status := 404; body := Some (orderNotFound dispute) |},
     TestConnection :: GetOrder (d_order_id dispute)
     :: if db_connects base
        then [InsertErrorRecord (orderNotFoundRecord dispute (Some request))]
        else []).
Proof.
  intros G P Ty E.
  rewrite (handle_order_not_found rt env (ShopifyService.worldOf cfg axios base)
             request dispute G P (eqb_chargeback _ Ty)); [reflexivity|].
  cbn [shop_order ShopifyService.worldOf]. unfold ShopifyService.getOrder_result.
  now rewrite E.
Qed.

Lemma failed_lookup_reads_as_not_found_witness :
  fst (handle Sample.runtime Sample.env
         (ShopifyService.worldOf Fixture.shopConfig Fixture.unavailable
            (Sample.world None true))
         Sample.chargebackRequest)
  = Ok {| status := 404; body := Some "Order 4501 not found" |}.
Proof.
  assert (G : passesGates Sample.runtime Sample.env Sample.chargebackRequest = true)
    by (vm_compute; reflexivity).
  assert (P : JSON_parse Sample.runtime (text Sample.chargebackRequest)
              = ParsedDispute Sample.chargeback)
    by (vm_compute; reflexivity).
  rewrite (failed_lookup_reads_as_not_found Sample.runtime Sample.env
             (Sample.world None true) Fixture.shopConfig Fixture.unavailable
             Sample.chargebackRequest Sample.chargeback Fixture.serviceUnavailable
             G P eq_refl eq_refl).
  reflexivity.
Defined.

(** ** The tag rule from any tag string *)

Lemma append_assoc (a b c : string) : (a ++ b) ++ c = a ++ b ++ c.
Proof. induction a as [|x a IH]; simpl; [reflexivity | now rewrite IH]. Qed.

Lemma retag_risk (s : string) :
  Js.includes s "chargeback_risk" = true -> newTags (applyTagLogic s) = s.
Proof. intros H. now destruct (applyTagLogic_risk s H). Qed.

Lemma retag_twice_reaches_risk (s : string) :
  Js.includes (newTags (applyTagLogic (newTags (applyTagLogic s))))
              "chargeback_risk" = true.
Proof.
  assert (K : forall x, Js.includes (x ++ ", chargeback_risk") "chargeback_risk" = true)
    by (intros; apply includes_app_suffix; reflexivity).
  destruct (Js.includes s "chargeback_risk") eqn:R.
  - now rewrite !(retag_risk s R).
  - destruct (Js.includes s "chargeback_flag1") eqn:F.
    + destruct (applyTagLogic_flagged s R F) as [_ ->].
      now rewrite (retag_risk _ (K s)).
    + destruct (applyTagLogic_untagged s R F) as [_ ->].
      destruct (applyTagLogic_flagged _ (flagged_no_risk s R) (flagged_has_flag s))
        as [_ ->].
      apply K.
Qed.

(** From any tag string: the rule only appends (the current tags are a
    prefix of the new ones), it asks for no update exactly when the risk tag
    is present, every update leaves the first flag in the tags, and after
    two updates at most the risk tag is present and the rule asks for no
    more. *)
Theorem applyTagLogic_only_appends (s : string) :
  (exists suffix, newTags (applyTagLogic s) = s ++ suffix)
  /\ (shouldUpdate (applyTagLogic s) = false <-> Js.Substring "chargeback_risk" s)
  /\ (shouldUpdate (applyTagLogic s) = true ->
      Js.Substring "chargeback_flag1" (newTags (applyTagLogic s)))
  /\ shouldUpdate
       (applyTagLogic (newTags (applyTagLogic (newTags (applyTagLogic s)))))
     = false.
Proof.
  split; [apply applyTagLogic_extends|]. split; [|split].
  - rewrite <- includes_spec. unfold applyTagLogic.
    destruct (Js.includes s "chargeback_risk");
      [|destruct (Js.includes s "chargeback_flag1")]; cbn; split; congruence.
  - intros U. apply includes_spec.
    destruct (Js.includes s "chargeback_risk") eqn:R.
    + destruct (applyTagLogic_risk s R). congruence.
    + destruct (Js.includes s "chargeback_flag1") eqn:F.
      * destruct (applyTagLogic_flagged s R F) as [_ ->].
        apply includes_spec. apply includes_spec in F. destruct F as [a [b ->]].
        exists a, (b ++ ", chargeback_risk"). now rewrite !append_assoc.
      * destruct (applyTagLogic_untagged s R F) as [_ ->]. apply flagged_has_flag.
  - now destruct (applyTagLogic_risk _ (retag_twice_reaches_risk s)).
Qed.

(** ** The topic and shop-domain gates *)

Lemma falsy_false_inv (o : option string) :
  Js.falsy o = false -> exists s, o = Some s /\ Js.truthy s = true /\ Js.or_else o "" = s.
Proof.
  destruct o as [s|]; [|discriminate]. unfold Js.falsy, Js.or_else.
  destruct (Js.truthy s) eqn:T; [intros _; exists s; repeat split; exact T | discriminate].
Qed.

(** The topic gate lets through exactly the four listed topics; a request
    without the header, or with an empty one, is refused. *)
Theorem topic_gate_is_the_list (request : HttpRequest) :
  validateChargebackWebhook request = true
  <-> exists topic,
        headers_get request "x-shopify-topic" = Some topic
        /\ (topic = "disputes/create" \/ topic = "disputes/update"
            \/ topic = "chargebacks/create" \/ topic = "chargebacks/update").
Proof.
  unfold validateChargebackWebhook.
  destruct (Js.falsy (headers_get request "x-shopify-topic")) eqn:F.
  - split; [discriminate|]. intros [t [H D]]. rewrite H in F.
    destruct D as [ -> | [ -> | [ -> | -> ] ] ]; discriminate.
  - destruct (falsy_false_inv _ F) as [t [H [_ ->]]]. rewrite H.
    unfold supportedTopics. cbn [existsb]. rewrite !orb_true_iff, !String.eqb_eq.
    split.
    + intros D. exists t. split; [reflexivity|]. intuition discriminate.
    + intros [t' [[= <-] D]]. intuition.
Qed.

(** The shop-domain gate is open when no domain is configured; when one is,
    it lets through exactly the requests whose header equals it.  So with
    no domain configured the handler never answers 403. *)
Theorem domain_gate_fails_open rt env w request :
  (Js.falsy (SHOPIFY_SHOP_DOMAIN env) = true ->
     validateShopDomain env request = true
     /\ forall response,
          fst (handle rt env w request) = Ok response -> status response <> 403%Z)
  /\ (forall expectedDomain,
        SHOPIFY_SHOP_DOMAIN env = Some expectedDomain ->
        Js.truthy expectedDomain = true ->
        (validateShopDomain env request = true
         <-> headers_get request "x-shopify-shop-domain" = Some expectedDomain)).
Proof.
  split.
  - intros F.
    assert (D : validateShopDomain env request = true)
      by (unfold validateShopDomain; now rewrite F).
    split; [exact D|].
    generalize (eq_refl (pathOf rt env w request)).
    by_path rt env w request; cbn [fst]; intros _ response [= <-];
      cbn [status]; congruence.
  - intros expectedDomain E T. unfold validateShopDomain.
    rewrite E, (falsy_truthy _ T), (or_else_truthy _ _ T).
    destruct (Js.falsy (headers_get request "x-shopify-shop-domain")) eqn:F.
    + split; [discriminate|]. intros H. rewrite H, (falsy_truthy _ T) in F.
      discriminate.
    + destruct (falsy_false_inv _ F) as [r [H [_ ->]]]. rewrite H, String.eqb_eq.
      split; congruence.
Qed.

Lemma domain_gate_fails_open_witness :
  validateShopDomain
    {| SHOPIFY_WEBHOOK_SECRET := Some "s"; SHOPIFY_SHOP_DOMAIN := None |}
    (Sample.request "disputes/create" "{}") = true.
Proof.
  apply (proj1 (domain_gate_fails_open Sample.runtime
                  {| SHOPIFY_WEBHOOK_SECRET := Some "s"; SHOPIFY_SHOP_DOMAIN := None |}
                  (Sample.world None true) (Sample.request "disputes/create" "{}"))).
  reflexivity.
Defined.

(** ** Headers and webhook information *)

(** The header check accepts a request exactly when the three fields that
    [getWebhookInfo] reads from the same headers are non-empty, and then
    each field is the header's value. *)
Theorem headers_valid_iff_info_filled (request : HttpRequest) :
  (validateWebhookHeaders request = true
   <-> shopDomain (getWebhookInfo request) <> ""
       /\ topic (getWebhookInfo request) <> ""
       /\ apiVersion (getWebhookInfo request) <> "")
  /\ (validateWebhookHeaders request = true ->
      headers_get request "x-shopify-shop-domain"
      = Some (shopDomain (getWebhookInfo request))
      /\ headers_get request "x-shopify-topic"
         = Some (topic (getWebhookInfo request))
      /\ headers_get request "x-shopify-api-version"
         = Some (apiVersion (getWebhookInfo request))).
Proof.
  assert (K : forall o, (negb (Js.falsy o) = true <-> Js.or_else o "" <> "")
                        /\ (negb (Js.falsy o) = true -> o = Some (Js.or_else o ""))).
  { intros [[|c s]|]; cbn; split; try split; congruence. }
  unfold validateWebhookHeaders, requiredHeaders, getWebhookInfo.
  cbn [forallb shopDomain topic apiVersion]. rewrite andb_true_r, !andb_true_iff.
  split.
  - rewrite !(proj1 (K _)). tauto.
  - intros (A & B & C). repeat split; now apply K.
Qed.

(** ** The detected environment *)

Lemma toLowerCase_app (a b : string) :
  Js.toLowerCase (a ++ b) = Js.toLowerCase a ++ Js.toLowerCase b.
Proof. induction a as [|c a IH]; simpl; [reflexivity | now rewrite IH]. Qed.

Lemma includes_lower (host p : string) :
  Js.toLowerCase p = p ->
  Js.includes host p = true -> Js.includes (Js.toLowerCase host) p = true.
Proof.
  intros L. rewrite !includes_spec. intros [a [b ->]].
  exists (Js.toLowerCase a), (Js.toLowerCase b).
  now rewrite !toLowerCase_app, L.
Qed.

Lemma includes_longer (host p q : string) :
  Js.includes host (p ++ q) = true -> Js.includes host p = true.
Proof.
  rewrite !includes_spec. intros [a [b ->]]. exists a, (q ++ b).
  now rewrite append_assoc.
Qed.

Lemma includes_none (host p q : string) :
  Js.includes host p = false -> Js.includes host (p ++ q) = false.
Proof.
  intros H. destruct (Js.includes host (p ++ q)) eqn:E; [|reflexivity].
  apply includes_longer in E. congruence.
Qed.

Lemma includes_lower_none (host p : string) :
  Js.toLowerCase p = p ->
  Js.includes (Js.toLowerCase host) p = false -> Js.includes host p = false.
Proof.
  intros L H. destruct (Js.includes host p) eqn:E; [|reflexivity].
  apply (includes_lower _ _ L) in E. congruence.
Qed.

(** The environment is "development" exactly when the lower-cased host
    contains one of the four local names or the host itself contains one of
    the two development domains, and "production" otherwise: the entries
    with port 7071 and the two case-sensitive checks of the local names add
    nothing.  A request with no host is "production". *)
Theorem detectEnvironment_decides (request : HttpRequest) :
  (detectEnvironment request = "development"
   <-> Js.Substring "localhost" (Js.toLowerCase (Js.or_else (headers_get request "host") ""))
       \/ Js.Substring "127.0.0.1" (Js.toLowerCase (Js.or_else (headers_get request "host") ""))
       \/ Js.Substring "0.0.0.0" (Js.toLowerCase (Js.or_else (headers_get request "host") ""))
       \/ Js.Substring "::1" (Js.toLowerCase (Js.or_else (headers_get request "host") ""))
       \/ Js.Substring "dev.azurewebsites.net" (Js.or_else (headers_get request "host") "")
       \/ Js.Substring "test.azurewebsites.net" (Js.or_else (headers_get request "host") ""))
  /\ (detectEnvironment request <> "development" ->
      detectEnvironment request = "production")
  /\ (Js.falsy (headers_get request "host") = true ->
      detectEnvironment request = "production").
Proof.
  split; [|split].
  - rewrite <- !includes_spec. unfold detectEnvironment, localHosts.
    generalize (Js.or_else (headers_get request "host") ""). intros host.
    cbn [existsb].
    change (Js.toLowerCase "localhost") with "localhost".
    change (Js.toLowerCase "127.0.0.1") with "127.0.0.1".
    change (Js.toLowerCase "0.0.0.0") with "0.0.0.0".
    change (Js.toLowerCase "::1") with "::1".
    change (Js.toLowerCase "localhost:7071") with ("localhost" ++ ":7071").
    change (Js.toLowerCase "127.0.0.1:7071") with ("127.0.0.1" ++ ":7071").
    change (Js.toLowerCase "0.0.0.0:7071") with ("0.0.0.0" ++ ":7071").
    destruct (Js.includes (Js.toLowerCase host) "localhost") eqn:A;
      [cbn; split; auto|].
    destruct (Js.includes (Js.toLowerCase host) "127.0.0.1") eqn:B;
      [cbn; split; auto|].
    destruct (Js.includes (Js.toLowerCase host) "0.0.0.0") eqn:C;
      [cbn; split; auto|].
    destruct (Js.includes (Js.toLowerCase host) "::1") eqn:D;
      [cbn; split; auto 6|].
    rewrite (includes_none _ _ ":7071" A), (includes_none _ _ ":7071" B),
      (includes_none _ _ ":7071" C),
      (includes_lower_none host "localhost" eq_refl A),
      (includes_lower_none host "127.0.0.1" eq_refl B).
    cbn [orb].
    destruct (Js.includes host "dev.azurewebsites.net");
      [cbn; split; auto 6|].
    destruct (Js.includes host "test.azurewebsites.net");
      [cbn; split; auto 7|].
    cbn. split; [discriminate | intuition discriminate].
  - unfold detectEnvironment.
    destruct (_ || _); [intros N; now destruct N | reflexivity].
  - intros F. unfold detectEnvironment.
    replace (Js.or_else (headers_get request "host") "") with "";
      [reflexivity|].
    unfold Js.falsy, Js.or_else in *.
    destruct (headers_get request "host") as [h|]; [|reflexivity].
    destruct (Js.truthy h); [discriminate | reflexivity].
Qed.

(** ** The hexadecimal signature check *)

Lemma unhex_lower (c : ascii) : Hex.unhex (Js.lower_char c) = Hex.unhex c.
Proof.
  destruct c as [[|] [|] [|] [|] [|] [|] [|] [|]]; vm_compute; reflexivity.
Qed.

Lemma hex_decode_lower (s : string) : Hex.decode (Js.toLowerCase s) = Hex.decode s.
Proof.
  assert (K : forall n s, (String.length s <= n)%nat ->
                          Hex.decode (Js.toLowerCase s) = Hex.decode s).
  { induction n as [|n IH]; intros [|a [|b rest]] L; try reflexivity;
      cbn [String.length] in L; try lia.
    cbn [Js.toLowerCase Hex.decode]. rewrite !unhex_lower.
    destruct (Hex.unhex a), (Hex.unhex b); try reflexivity.
    rewrite IH by lia. reflexivity. }
  now apply (K (String.length s)).
Qed.

(** Text after the digits that were decoded does not reach the buffer when
    it starts with a pair that is not two hexadecimal digits. *)
Lemma hex_decode_stops (x : string) (a b : ascii) (rest : string) :
  String.length x = (2 * List.length (Hex.decode x))%nat ->
  Hex.unhex a = None \/ Hex.unhex b = None ->
  Hex.decode (x ++ String a (String b rest)) = Hex.decode x.
Proof.
  intros L N.
  assert (E : Hex.decode (String a (String b rest)) = []).
  { cbn [Hex.decode]. destruct N as [-> | ->]; [reflexivity|].
    now destruct (Hex.unhex a). }
  assert (K : forall n x, (String.length x <= n)%nat ->
                String.length x = (2 * List.length (Hex.decode x))%nat ->
                Hex.decode (x ++ String a (String b rest)) = Hex.decode x).
  { clear L. induction n as [|n IH]; intros [|c [|d y]] Ln L;
      cbn [String.length] in Ln; try lia; try exact E;
      cbn [Hex.decode String.length List.length] in L; try lia.
    revert L. cbn [append Hex.decode].
    destruct (Hex.unhex c), (Hex.unhex d); cbn [List.length]; try lia.
    intros L. rewrite IH by lia. reflexivity. }
  now apply (K (String.length x)).
Qed.

Lemma hex_validateShopifyWebhook_present hmac env request body secret hmacHeader :
  SHOPIFY_WEBHOOK_SECRET env = Some secret -> Js.truthy secret = true ->
  headers_get request "X-Shopify-Hmac-Sha256" = Some hmacHeader ->
  Js.truthy hmacHeader = true ->
  Hex.validateShopifyWebhook_try hmac env request body
  = timingSafeEqual
      (Hex.decode hmacHeader)
      (Hex.decode (hmac secret (Js.or_else body (text request)))).
Proof.
  intros Hs Ts Hh Th. unfold Hex.validateShopifyWebhook_try.
  rewrite Hs, Hh, !falsy_truthy, !or_else_truthy by assumption. reflexivity.
Qed.

(** With a secret and a signature header, the hexadecimal check always
    answers; it answers [true] exactly when the header and the expected
    digest decode to the same bytes.  So the letters of the header may be in
    either case, and a header that goes on after the digest with text that
    is not hexadecimal is accepted as well. *)
Theorem hex_signature_is_compared_by_bytes
  hmac env request body secret hmacHeader :
  SHOPIFY_WEBHOOK_SECRET env = Some secret -> Js.truthy secret = true ->
  headers_get request "X-Shopify-Hmac-Sha256" = Some hmacHeader ->
  Js.truthy hmacHeader = true ->
  (exists isValid,
     Hex.validateShopifyWebhook hmac env request body = Ok isValid)
  /\ (Hex.validateShopifyWebhook hmac env request body = Ok true
      <-> Hex.decode hmacHeader
          = Hex.decode (hmac secret (Js.or_else body (text request))))
  /\ (Js.toLowerCase hmacHeader
      = Js.toLowerCase (hmac secret (Js.or_else body (text request))) ->
      Hex.validateShopifyWebhook hmac env request body = Ok true)
  /\ (forall a b rest,
        hmacHeader
        = hmac secret (Js.or_else body (text request)) ++ String a (String b rest) ->
        String.length (hmac secret (Js.or_else body (text request)))
        = (2 * List.length
                 (Hex.decode (hmac secret (Js.or_else body (text request)))))%nat ->
        Hex.unhex a = None \/ Hex.unhex b = None ->
        Hex.validateShopifyWebhook hmac env request body = Ok true).
Proof.
  intros Hs Ts Hh Th.
  assert (I : Hex.validateShopifyWebhook hmac env request body = Ok true
              <-> Hex.decode hmacHeader
                  = Hex.decode (hmac secret (Js.or_else body (text request)))).
  { unfold Hex.validateShopifyWebhook.
    rewrite (hex_validateShopifyWebhook_present _ _ _ _ _ _ Hs Ts Hh Th).
    rewrite <- timingSafeEqual_true.
    destruct (timingSafeEqual _ _) as [[|]|]; split; congruence. }
  split; [|split; [exact I|split]].
  - unfold Hex.validateShopifyWebhook.
    destruct (Hex.validateShopifyWebhook_try hmac env request body); eauto.
  - intros L. apply I.
    rewrite <- (hex_decode_lower hmacHeader), L. apply hex_decode_lower.
  - intros a b rest E L N. apply I. rewrite E. now apply hex_decode_stops.
Qed.

Lemma hex_signature_is_compared_by_bytes_witness :
  Hex.validateShopifyWebhook Fixture.hmacHex Sample.env
    (Sample.signed Fixture.hexDigest_s_b_upper "b") (Some "b") = Ok true.
Proof.
  assert (Hs : SHOPIFY_WEBHOOK_SECRET Sample.env = Some "s") by reflexivity.
  assert (Ts : Js.truthy "s" = true) by reflexivity.
  assert (Hh : headers_get (Sample.signed Fixture.hexDigest_s_b_upper "b")
                 "X-Shopify-Hmac-Sha256" = Some Fixture.hexDigest_s_b_upper)
    by (vm_compute; reflexivity).
  assert (Th : Js.truthy Fixture.hexDigest_s_b_upper = true) by reflexivity.
  pose proof (hex_signature_is_compared_by_bytes Fixture.hmacHex Sample.env
                (Sample.signed Fixture.hexDigest_s_b_upper "b") (Some "b")
                "s" Fixture.hexDigest_s_b_upper Hs Ts Hh Th) as [_ [_ [L _]]].
  apply L. vm_compute. reflexivity.
Defined.

(** ** The statements sent to the database *)

(** Each insert binds as many values as its statement has placeholders; the
    optional fields of an error row that are absent, zero or empty are
    stored as NULL, and the processed row stores no NULL. *)
Theorem insert_values_fill_the_placeholders
  (record : WebhookRecord) (errorData : ErrorRecord) :
  List.length (Sql.insertWebhookRecord_values record)
  = Sql.count_char "?" Sql.insertWebhookRecord_query
  /\ List.length (Sql.insertErrorRecord_values errorData)
     = Sql.count_char "?" Sql.insertErrorRecord_query
  /\ ~ In Sql.Null (Sql.insertWebhookRecord_values record)
  /\ (In Sql.Null (Sql.insertErrorRecord_values errorData)
      <-> Sql.number_or_null (er_order_id errorData) = Sql.Null
          \/ Sql.number_or_null (er_dispute_id errorData) = Sql.Null
          \/ Js.falsy (er_customer_email errorData) = true
          \/ Js.falsy (stack_trace errorData) = true
          \/ Js.falsy (request_data errorData) = true)
  /\ (Sql.number_or_null (er_order_id errorData) = Sql.Null
      <-> er_order_id errorData = None \/ er_order_id errorData = Some 0%Z).
Proof.
  split; [vm_compute; reflexivity|]. split; [vm_compute; reflexivity|].
  split; [|split].
  - unfold Sql.insertWebhookRecord_values. cbn [In].
    intros H. repeat (destruct H as [H|H]; [discriminate|]). exact H.
  - assert (K : forall o, Sql.text_or_null o = Sql.Null <-> Js.falsy o = true).
    { intros [s|]; cbn; [|tauto]. destruct (Js.truthy s); cbn; split; congruence. }
    unfold Sql.insertErrorRecord_values. cbn [In]. rewrite <- !K. split.
    + intros H. repeat (destruct H as [H|H]; try discriminate; auto 6).
      destruct H.
    + intros [H|[H|[H|[H|H]]]]; auto 12.
  - destruct (er_order_id errorData) as [z|]; cbn; [|tauto].
    destruct (Z.eqb_spec z 0) as [->|N]; split; auto; try discriminate.
    intros [H|H]; [discriminate | congruence].
Qed.

(** ** The status function *)

(** The status function answers 200 with status "running" and the database
    reported as connected whatever the connection test says: the test
    answers with a boolean, which is not looked at, so neither "degraded"
    nor the 500 answer is produced.  The shop is reported as configured
    exactly when both its domain and its token are set. *)
Theorem status_is_always_running
  env tokens w execute START_TIME (request : HttpRequest) :
  exists report,
    Status.handler env tokens w execute START_TIME request
    = {| Status.code := 200; Status.payload := Status.Report report |}
    /\ Status.overall report = "running"
    /\ Status.database report = Status.Connected
    /\ Status.detected report = detectEnvironment request
    /\ Status.metrics report = Status.getMetrics execute
    /\ (Status.shopify report <> Status.ShopifyNotConfigured
        <-> Js.falsy (SHOPIFY_SHOP_DOMAIN env) = false
            /\ Js.falsy (Status.SHOPIFY_ACCESS_TOKEN tokens) = false)
    /\ (Status.slack report = Status.SlackConfigured
        <-> Js.falsy (Status.SLACK_BOT_TOKEN tokens) = false).
Proof.
  unfold Status.handler, Status.handler_try, Status.awaitTestConnection.
  eexists. split; [reflexivity|].
  destruct (Js.falsy (SHOPIFY_SHOP_DOMAIN env)),
    (Js.falsy (Status.SHOPIFY_ACCESS_TOKEN tokens)),
    (Js.falsy (Status.SLACK_BOT_TOKEN tokens)); cbn;
    repeat split; try congruence; try discriminate; intros []; congruence.
Qed.

(** The metrics are all or nothing: when each of the five queries answers,
    every metric is the [total] of the first row of its answer, or 0 when
    there is no row; when any of them fails, all five metrics are 0. *)
Theorem metrics_are_all_or_nothing (execute : string -> Res (list Status.Row)) :
  (Forall (fun sql => exists rows, execute sql = Ok rows)
          [Status.totalChargebacksQuery; Status.chargebacksTodayQuery;
           Status.chargebacksThisMonthQuery; Status.errorsTodayQuery;
           Status.errorsThisMonthQuery] ->
   forall rows (field : Status.Metrics -> Z) sql,
     In (field, sql)
        [(Status.total_chargebacks, Status.totalChargebacksQuery);
         (Status.chargebacks_today, Status.chargebacksTodayQuery);
         (Status.chargebacks_this_month, Status.chargebacksThisMonthQuery);
         (Status.errors_today, Status.errorsTodayQuery);
         (Status.errors_this_month, Status.errorsThisMonthQuery)] ->
     execute sql = Ok rows ->
     field (Status.getMetrics execute) = Status.firstTotal rows)
  /\ (Exists (fun sql => exists error, execute sql = Throw error)
             [Status.totalChargebacksQuery; Status.chargebacksTodayQuery;
              Status.chargebacksThisMonthQuery; Status.errorsTodayQuery;
              Status.errorsThisMonthQuery] ->
      Status.getMetrics execute = Status.noMetrics).
Proof.
  split.
  - intros H rows field sql I E.
    repeat match goal with
           | H : Forall _ (_ :: _) |- _ =>
               let x := fresh "rows" in let e := fresh "E" in
               apply Forall_cons_iff in H; destruct H as [[x e] H]
           end.
    unfold Status.getMetrics, Status.query. rewrite E0, E1, E2, E3, E4.
    cbn [In] in I.
    repeat (destruct I as [I|I];
            [injection I as <- <-; cbn; congruence|]).
    destruct I.
  - intros H. unfold Status.getMetrics, Status.query.
    repeat match goal with
           | H : Exists _ (_ :: _) |- _ =>
               apply Exists_cons in H; destruct H as [[error H]|H];
               [rewrite H; repeat match goal with
                                  | |- context [execute ?q] => destruct (execute q)
                                  end; reflexivity|]
           end.
    inversion H.
Qed.

(** ** The customer's name *)

Lemma trimStart_head (s : string) (c : ascii) (rest : string) :
  Js.trimStart s = String c rest -> Js.is_space c = false.
Proof.
  induction s as [|a s IH]; cbn [Js.trimStart]; [discriminate|].
  destruct (Js.is_space a) eqn:E; [exact IH|]. now intros [= <- _].
Qed.

Lemma trimEnd_head (s : string) (c : ascii) (rest : string) :
  Js.trimEnd s = String c rest -> exists rest', s = String c rest'.
Proof.
  destruct s as [|a s]; cbn [Js.trimEnd]; [discriminate|].
  destruct (Js.trimEnd s); [destruct (Js.is_space a)|];
    intros [= <- _]; eauto.
Qed.

Lemma trimEnd_last (s pre : string) (c : ascii) :
  Js.trimEnd s = pre ++ String c "" -> Js.is_space c = false.
Proof.
  revert pre. induction s as [|a s IH]; intros pre; cbn [Js.trimEnd].
  - now destruct pre.
  - destruct (Js.trimEnd s) as [|b t] eqn:E.
    + destruct (Js.is_space a) eqn:A; [now destruct pre|].
      destruct pre as [|p pre]; [now intros [= <-]|].
      intros [= _ H]. now destruct pre.
    + destruct pre as [|p pre]; [discriminate|].
      intros [= _ H]. exact (IH pre H).
Qed.

(** The customer's name neither starts nor ends with white space.  An order
    with no customer gives the placeholder name, but a customer without
    names gives the empty name. *)
Theorem customerNameOf_is_trimmed (order : ShopifyOrder) :
  (forall c rest, customerNameOf order = String c rest -> Js.is_space c = false)
  /\ (forall pre c, customerNameOf order = pre ++ String c "" ->
                    Js.is_space c = false)
  /\ (o_customer order = None -> customerNameOf order = "Customer not identified")
  /\ (forall customer,
        o_customer order = Some customer ->
        Js.falsy (c_first_name customer) = true ->
        Js.falsy (c_last_name customer) = true ->
        customerNameOf order = "").
Proof.
  unfold customerNameOf. destruct (o_customer order) as [customer|].
  - split; [|split; [|split]].
    + intros c rest H. unfold Js.trim in H.
      destruct (trimEnd_head _ _ _ H) as [rest' H'].
      exact (trimStart_head _ _ _ H').
    + intros pre c H. exact (trimEnd_last _ _ _ H).
    + discriminate.
    + intros ? [= <-] F L.
      assert (K : forall o, Js.falsy o = true -> Js.or_else o "" = "").
      { intros [s|]; cbn; [|reflexivity]. now destruct (Js.truthy s). }
      rewrite (K _ F), (K _ L). reflexivity.
  - split; [|split; [|split]].
    + intros c rest [= <- _]. reflexivity.
    + intros pre c H. exact (trimEnd_last "Customer not identified" pre c H).
    + reflexivity.
    + discriminate.
Qed.

(** ** What the answer and the trace do not depend on *)

(** Rewrites [handle] in the world [w'] along the path already established
    for another world that answers the order lookup alike. *)
Ltac same_path rt env w' request :=
  first
    [ erewrite (handle_processed rt env w' request) by eassumption
    | erewrite (handle_pipeline_threw rt env w' request) by eassumption
    | erewrite (handle_order_not_found rt env w' request) by eassumption
    | erewrite (handle_unsupported_type rt env w' request) by eassumption
    | erewrite (handle_invalid_json rt env w' request) by eassumption
    | erewrite (handle_null_body rt env w' request) by eassumption
    | erewrite (handle_invalid_domain rt env w' request) by eassumption
    | erewrite (handle_unsupported_topic rt env w' request) by eassumption
    | erewrite (handle_invalid_signature rt env w' request) by eassumption ].

(** A failed insert and a failed chat post are silent: the response and the
    calls made are the same whether or not the statements execute and the
    messages are posted. *)
Theorem write_and_post_failures_are_silent
  rt env w request (executes posts : bool) :
  handle rt env w request
  = handle rt env
      {| db_connects := db_connects w; db_executes := executes;
         shop_order := shop_order w; shop_puts := shop_puts w;
         slack_posts := posts; now := now w |}
      request.
Proof.
  set (w' := {| db_connects := db_connects w; db_executes := executes;
                shop_order := shop_order w; shop_puts := shop_puts w;
                slack_posts := posts; now := now w |}).
  generalize (eq_refl (pathOf rt env w request)).
  by_path rt env w request; intros _; same_path rt env w' request;
    reflexivity.
Qed.

(** The response is determined by the request and by what the order lookup
    answers: two worlds that answer the lookup alike get the same response,
    whatever the database, the tag update and the chat do. *)
Theorem response_depends_on_the_lookup_only rt env w1 w2 request :
  (forall orderId, shop_order w1 orderId = shop_order w2 orderId) ->
  fst (handle rt env w1 request) = fst (handle rt env w2 request).
Proof.
  intros H. generalize (eq_refl (pathOf rt env w1 request)).
  by_path rt env w1 request; intros _;
    repeat match goal with
           | O : shop_order w1 _ = _ |- _ => rewrite H in O
           end;
    same_path rt env w2 request; reflexivity.
Qed.

Lemma response_depends_on_the_lookup_only_witness :
  fst (handle Sample.runtime Sample.env
         {| db_connects := true; db_executes := true;
            shop_order := fun _ => None; shop_puts := fun _ _ => true;
            slack_posts := true; now := 0 |}
         Sample.chargebackRequest)
  = fst (handle Sample.runtime Sample.env
           {| db_connects := false; db_executes := false;
              shop_order := fun _ => None; shop_puts := fun _ _ => false;
              slack_posts := false; now := 1 |}
           Sample.chargebackRequest).
Proof.
  apply (response_depends_on_the_lookup_only Sample.runtime Sample.env
           {| db_connects := true; db_executes := true;
              shop_order := fun _ => None; shop_puts := fun _ _ => true;
              slack_posts := true; now := 0 |}
           {| db_connects := false; db_executes := false;
              shop_order := fun _ => None; shop_puts := fun _ _ => false;
              slack_posts := false; now := 1 |}
           Sample.chargebackRequest).
  intros orderId. reflexivity.
Defined.



(** The response body is always a text, and apart from the 404 answer,
    which quotes the order id of the dispute, it is one of seven fixed
    texts: neither the request body nor the message of a caught error is
    sent back. *)
Theorem response_body_is_fixed_text rt env w request :
  exists response answer,
    fst (handle rt env w request) = Ok response
    /\ body response = Some answer
    /\ (In answer ["Unauthorized"; "Unsupported webhook type"; "Forbidden";
                   "Invalid JSON"; "Unsupported dispute type";
                   "Webhook processed successfully"; "Internal server error"]
        \/ exists dispute,
             JSON_parse rt (text request) = ParsedDispute dispute
             /\ status response = 404%Z
             /\ answer = "Order " ++ Js.string_of_Z (d_order_id dispute)
                         ++ " not found").
Proof.
  generalize (eq_refl (pathOf rt env w request)).
  by_path rt env w request; cbn [fst]; intros _; do 2 eexists;
    (split; [reflexivity|]); (split; [reflexivity|]);
    first [ left; cbn [In]; tauto
          | right; eexists; split; [reflexivity|]; split; reflexivity ].
Qed.

(** When the platform rejects the tag update, with whatever status, the
    event is still answered 200, the notification still announces the
    rule's action (an added tag) although no tag was added, and any row
    written keeps the customer's tags unchanged. *)
Theorem rejected_update_is_still_announced
  rt env base cfg axios request dispute order customer currentTags error :
  passesGates rt env request = true ->
  JSON_parse rt (text request) = ParsedDispute dispute ->
  d_type dispute = "chargeback" ->
  ShopifyService.axios_get axios
    (ShopifyService.orderUrl cfg (d_order_id dispute))
    (ShopifyService.requestHeaders cfg) = inl (Some order) ->
  o_customer order = Some customer ->
  customerTagsOf order = JsString currentTags ->
  shouldUpdate (applyTagLogic currentTags) = true ->
  ShopifyService.axios_put axios
    (ShopifyService.customerUrl cfg (c_id customer)) (c_id customer)
    (newTags (applyTagLogic currentTags))
    (ShopifyService.requestHeaders cfg) = inr error ->
  fst (handle rt env (ShopifyService.worldOf cfg axios base) request)
  = Ok {| status := 200; body := Some "Webhook processed successfully" |}
  /\ (exists name email orderName,
        notifications
          (snd (handle rt env (ShopifyService.worldOf cfg axios base) request))
        = [SendWebhookNotification (Some dispute)
             (Some (action (applyTagLogic currentTags))) name email orderName])
  /\ In (UpdateCustomerTags (c_id customer) (newTags (applyTagLogic currentTags)))
        (snd (handle rt env (ShopifyService.worldOf cfg axios base) request))
  /\ Forall (fun row => customer_tags_before row = currentTags
                        /\ customer_tags_after row = currentTags)
            (webhookRecords
               (snd (handle rt env (ShopifyService.worldOf cfg axios base) request))).
Proof.
  intros G P Ty E C T U R.
  assert (O : shop_order (ShopifyService.worldOf cfg axios base) (d_order_id dispute)
              = Some order).
  { cbn [shop_order ShopifyService.worldOf]. now apply getOrder_result_spec. }
  rewrite (handle_processed rt env (ShopifyService.worldOf cfg axios base)
             request dispute G P (eqb_chargeback _ Ty) order currentTags O T).
  unfold tagUpdateTrace, finalTagsOf, successNotification.
  cbn [shop_puts ShopifyService.worldOf db_connects].
  unfold ShopifyService.updateCustomerTags_result. rewrite U, C, R.
  cbn [fst snd]. split; [reflexivity|].
  destruct (db_connects base);
    cbn [app notifications filter is_notification webhookRecords In];
    (split; [do 3 eexists; reflexivity|]); (split; [auto|]);
    repeat constructor.
Qed.

Lemma rejected_update_is_still_announced_witness :
  fst (handle Sample.runtime Sample.env
         (ShopifyService.worldOf Fixture.shopConfig Fixture.refusesUpdates
            (Sample.world None true))
         Sample.chargebackRequest)
  = Ok {| status := 200; body := Some "Webhook processed successfully" |}.
Proof.
  assert (G : passesGates Sample.runtime Sample.env Sample.chargebackRequest = true)
    by (vm_compute; reflexivity).
  assert (P : JSON_parse Sample.runtime (text Sample.chargebackRequest)
              = ParsedDispute Sample.chargeback)
    by (vm_compute; reflexivity).
  assert (U : shouldUpdate (applyTagLogic "vip") = true)
    by (vm_compute; reflexivity).
  pose proof (rejected_update_is_still_announced Sample.runtime Sample.env
                (Sample.world None true) Fixture.shopConfig Fixture.refusesUpdates
                Sample.chargebackRequest Sample.chargeback
                (Sample.order (Some (Sample.customer (JsString "vip"))))
                (Sample.customer (JsString "vip")) "vip" Fixture.serviceUnavailable
                G P eq_refl eq_refl eq_refl eq_refl U eq_refl) as [H _].
  exact H.
Defined.
